(** * The Anthropic provider of obsidian-smart-composer

    A shallow embedding of [src/core/llm/anthropic.ts] (class
    [AnthropicProvider]) and of the request types of
    [src/types/llm/request.ts], followed by the properties of the
    translation layer: request mapping, response and stream
    normalisation, usage accounting and the error taxonomy.

    Conventions of the embedding:
    - a JavaScript string is the list of its UTF-16 code units;
    - a thrown value is an element of [exn]; code that may throw returns
      a [result];
    - token counts are JavaScript numbers holding integers; they are
      modelled in [Z] (additions of integers are exact below 2^53);
    - a call to the vendor transport is recorded in a log, so that
      "no vendor call was made" is the statement that the log is empty. *)

From Stdlib Require Import List ZArith NArith String Ascii Bool Lia.
From Stdlib Require QArith.
Import ListNotations.

Local Open Scope Z_scope.

(* ================================================================== *)
(** * JavaScript strings *)
(* ================================================================== *)

Definition code_unit := N.
Definition jsstring := list code_unit.

(** A literal of the source, as code units. *)
Fixpoint str (s : string) : jsstring :=
  match s with
  | EmptyString => []
  | String c rest => N_of_ascii c :: str rest
  end.

Definition jseqb (a b : jsstring) : bool :=
  if list_eq_dec N.eq_dec a b then true else false.

(** ECMAScript [WhiteSpace] and [LineTerminator] code points, the ones
    [String.prototype.trim] strips. *)
Definition isWhiteSpace (c : code_unit) : bool :=
  let n := Z.of_N c in
  (n =? 0x09) || (n =? 0x0A) || (n =? 0x0B) || (n =? 0x0C) || (n =? 0x0D)
  || (n =? 0x20) || (n =? 0xA0) || (n =? 0x1680)
  || ((0x2000 <=? n) && (n <=? 0x200A))
  || (n =? 0x2028) || (n =? 0x2029) || (n =? 0x202F) || (n =? 0x205F)
  || (n =? 0x3000) || (n =? 0xFEFF).

Fixpoint trimStart (s : jsstring) : jsstring :=
  match s with
  | [] => []
  | c :: rest => if isWhiteSpace c then trimStart rest else s
  end.

Definition trimEnd (s : jsstring) : jsstring := rev (trimStart (rev s)).

(** [s.trim()] *)
Definition trim (s : jsstring) : jsstring := trimEnd (trimStart s).

Fixpoint startsWith (s prefix : jsstring) : bool :=
  match prefix, s with
  | [], _ => true
  | _ :: _, [] => false
  | p :: prefix', c :: s' => N.eqb p c && startsWith s' prefix'
  end.

(** [s.includes(sub)] on strings: [sub] occurs somewhere in [s]. *)
Fixpoint includes (s sub : jsstring) : bool :=
  startsWith s sub ||
  match s with
  | [] => false
  | _ :: s' => includes s' sub
  end.

(** [arr.includes(x)] on an array of strings. *)
Definition array_includes (arr : list jsstring) (x : jsstring) : bool :=
  existsb (jseqb x) arr.

(** [arr.join(sep)] *)
Fixpoint join (sep : jsstring) (arr : list jsstring) : jsstring :=
  match arr with
  | [] => []
  | [x] => x
  | x :: rest => x ++ sep ++ join sep rest
  end.

(** [s.replace(/\/+$/, '')]: the trailing run of slashes is removed. *)
Fixpoint dropSlashes (s : jsstring) : jsstring :=
  match s with
  | [] => []
  | c :: rest => if N.eqb c 47 then dropSlashes rest else s
  end.

Definition stripTrailingSlashes (s : jsstring) : jsstring :=
  rev (dropSlashes (rev s)).

(** Truthiness of an optional string: [undefined] and [''] are falsy. *)
Definition truthy (s : option jsstring) : bool :=
  match s with
  | None | Some [] => false
  | Some (_ :: _) => true
  end.

(* ================================================================== *)
(** * Thrown values and fallible code *)
(* ================================================================== *)

(** The values the adapter throws or lets through.  [Error] is the
    built-in [Error]; [TypeError] is raised by the runtime itself on a
    property read of [undefined]; the two [LLM...] classes are the
    adapter's own (module [./exception]); [AuthenticationError] is
    [Anthropic.AuthenticationError]; [VendorError] stands for every other
    value the vendor transport can throw (connection errors, rate limits,
    aborts, ...), tagged with its class name. *)
Inductive exn : Type :=
| Error (message : jsstring)
| TypeError (message : jsstring)
| LLMAPIKeyNotSetException (message : jsstring)
| LLMAPIKeyInvalidException (message : jsstring) (rawError : exn)
| AuthenticationError (message : jsstring)
| VendorError (name message : jsstring).

Inductive result (A : Type) : Type :=
| OK (a : A)
| Throw (e : exn).
Arguments OK {A} a.
Arguments Throw {A} e.

Definition bind {A B} (r : result A) (k : A -> result B) : result B :=
  match r with
  | OK a => k a
  | Throw e => Throw e
  end.

Declare Scope result_scope.
Delimit Scope result_scope with result.
Notation "'let*' x ':=' r 'in' k" := (bind r (fun x => k))
  (at level 10, x pattern, r at level 100, k at level 200) : result_scope.
Local Open Scope result_scope.

(** [arr.map(f)] where [f] may throw: elements are visited left to right
    and the first throw ends the traversal. *)
Fixpoint mapM {A B} (f : A -> result B) (l : list A) : result (list B) :=
  match l with
  | [] => OK []
  | x :: rest =>
      let* y := f x in
      let* ys := mapM f rest in
      OK (y :: ys)
  end.

(** [instanceof Anthropic.AuthenticationError] *)
Definition isAuthenticationError (e : exn) : bool :=
  match e with
  | AuthenticationError _ => true
  | _ => false
  end.

(** [error.message] *)
Definition exn_message (e : exn) : jsstring :=
  match e with
  | Error m | TypeError m | LLMAPIKeyNotSetException m
  | LLMAPIKeyInvalidException m _ | AuthenticationError m
  | VendorError _ m => m
  end.

(* ================================================================== *)
(** * Canonical request model ([types/llm/request.ts]) *)
(* ================================================================== *)

Inductive Role : Type := user | assistant | system.

Definition Role_eqb (a b : Role) : bool :=
  match a, b with
  | user, user | assistant, assistant | system, system => true
  | _, _ => false
  end.

(** [Role] as the string the source interpolates into messages. *)
Definition Role_name (r : Role) : jsstring :=
  match r with
  | user => str "user"
  | assistant => str "assistant"
  | system => str "system"
  end.

(** [ContentPart = TextContent | ImageContentPart] *)
Inductive ContentPart : Type :=
| TextContent (text : jsstring)
| ImageContentPart (url : jsstring).

(** [content: string | ContentPart[]] *)
Inductive MessageContent : Type :=
| ContentString (s : jsstring)
| ContentParts (parts : list ContentPart).

Record RequestMessage : Type := {
  role : Role;
  content : MessageContent
}.

(** A JavaScript number that is not a token count (sampling parameters);
    the adapter only passes them through. *)
Definition number := QArith_base.Q.

(** [LLMRequestBase]: the fields this adapter reads.  The remaining
    optional fields ([frequency_penalty], [presence_penalty], [logit_bias],
    [prediction], [reasoning_effort], [web_search_options]) are never read
    by [AnthropicProvider]. *)
Record LLMRequest : Type := {
  messages : list RequestMessage;
  req_model : jsstring;
  max_tokens : option Z;
  temperature : option number;
  top_p : option number
}.

(** An [AbortSignal] handle. *)
Definition AbortSignal := nat.

(** [LLMOptions] *)
Record LLMOptions : Type := {
  signal : option AbortSignal
}.

(** The model-configuration record read by the adapter ([ChatModel]); the
    [thinking] extension exists on the anthropic variant only. *)
Record Thinking : Type := {
  budget_tokens : Z
}.

Record ChatModel : Type := {
  providerType : jsstring;
  chat_model_id : jsstring;
  thinking : option Thinking
}.

(** [Extract<LLMProvider, { type: 'anthropic' }>] *)
Record LLMProvider : Type := {
  provider_id : jsstring;
  provider_apiKey : option jsstring;
  provider_baseUrl : option jsstring
}.

(* ================================================================== *)
(** * Canonical response model ([types/llm/response.ts]) *)
(* ================================================================== *)

Record ResponseUsage : Type := {
  prompt_tokens : Z;
  completion_tokens : Z;
  total_tokens : Z
}.

Record ResponseMessage : Type := {
  rm_content : jsstring;
  rm_reasoning : option jsstring;
  rm_role : Role
}.

Record NonStreamingChoice : Type := {
  nsc_finish_reason : option jsstring;
  nsc_message : ResponseMessage
}.

Record LLMResponseNonStreaming : Type := {
  resp_id : jsstring;
  resp_choices : list NonStreamingChoice;
  resp_model : jsstring;
  resp_object : jsstring;
  resp_usage : ResponseUsage
}.

Record Delta : Type := {
  delta_content : option jsstring;
  delta_reasoning : option jsstring
}.

Record StreamingChoice : Type := {
  sc_finish_reason : option jsstring;
  sc_delta : Delta
}.

Record LLMResponseStreaming : Type := {
  chunk_id : jsstring;
  chunk_choices : list StreamingChoice;
  chunk_object : jsstring;
  chunk_model : jsstring;
  chunk_usage : option ResponseUsage
}.

(* ================================================================== *)
(** * Vendor wire types ([@anthropic-ai/sdk/resources/messages]) *)
(* ================================================================== *)

(** An element of a transmitted content array, as the object it is at
    run time: [{type: 'text', text}], [{type: 'image', source: {type:
    'base64', data, media_type}}], or, where an array of the caller is
    handed on as it is, its [{type: 'image_url', image_url: {url}}], which
    is no block of the vendor.  A text part of the caller and a text block
    are the same object. *)
Inductive BlockParam : Type :=
| TextBlockParam (text : jsstring)
| ImageBlockParam (data media_type : jsstring)
| ImageUrlPart (url : jsstring).

(** The [content] of a transmitted [MessageParam] as it is at run time:
    a string or an array. *)
Inductive ParamContent : Type :=
| ParamString (s : jsstring)
| ParamBlocks (blocks : list BlockParam).

Record MessageParam : Type := {
  mp_role : Role;
  mp_content : ParamContent
}.

Record ThinkingConfigParam : Type := {
  tc_type : jsstring;
  tc_budget_tokens : Z
}.

(** The body handed to [client.messages.create]. *)
Record MessageCreateParams : Type := {
  p_model : jsstring;
  p_messages : list MessageParam;
  p_system : option jsstring;
  p_thinking : option ThinkingConfigParam;
  p_max_tokens : Z;
  p_temperature : option number;
  p_top_p : option number;
  p_stream : bool
}.

Record RequestOptions : Type := {
  ro_signal : option AbortSignal
}.

Record Usage : Type := {
  input_tokens : Z;
  output_tokens : Z
}.

(** [ContentBlock] of a vendor reply. *)
Inductive ContentBlock : Type :=
| TextBlock (text : jsstring)
| ToolUseBlock (id name input : jsstring)
| ThinkingBlock (thinking signature : jsstring)
| RedactedThinkingBlock (data : jsstring).

(** [Anthropic.Message] *)
Record Message : Type := {
  msg_id : jsstring;
  msg_content : list ContentBlock;
  msg_model : jsstring;
  msg_role : Role;
  msg_stop_reason : option jsstring;
  msg_usage : Usage
}.

(** The [delta] of a [content_block_delta] event. *)
Inductive RawDelta : Type :=
| text_delta (text : jsstring)
| input_json_delta (partial_json : jsstring)
| citations_delta
| thinking_delta (thinking : jsstring)
| signature_delta (signature : jsstring).

(** [MessageStreamEvent] *)
Inductive MessageStreamEvent : Type :=
| message_start (message : Message)
| message_delta (stop_reason : option jsstring) (usage_output_tokens : Z)
| message_stop
| content_block_start (index : nat) (content_block : ContentBlock)
| content_block_delta (index : nat) (delta : RawDelta)
| content_block_stop (index : nat).

(** What iterating the vendor stream delivers: the events, then either
    exhaustion ([None]) or a value thrown by the iteration (an abort after
    cancellation, a connection failure). *)
Record VendorStream : Type := {
  events : list MessageStreamEvent;
  failure : option exn
}.

(* ================================================================== *)
(** * Computations that may call the vendor *)
(* ================================================================== *)

(** One invocation of [client.messages.create(body, options)]. *)
Definition VendorCall : Type := (MessageCreateParams * RequestOptions)%type.

(** The outcome of a computation together with the vendor calls it made,
    in order. *)
Definition call (A : Type) : Type := (result A * list VendorCall)%type.

Definition lift {A} (r : result A) : call A := (r, []).

Definition throw {A} (e : exn) : call A := (Throw e, []).

Definition call_bind {A B} (c : call A) (k : A -> call B) : call B :=
  match c with
  | (OK a, log) => let (r, log') := k a in (r, log ++ log')
  | (Throw e, log) => (Throw e, log)
  end.

(** [try { body } catch (error) { handler }] *)
Definition try_catch {A} (body : call A) (handler : exn -> call A) : call A :=
  match body with
  | (OK a, log) => (OK a, log)
  | (Throw e, log) => let (r, log') := handler e in (r, log ++ log')
  end.

Notation "'let>' x ':=' c 'in' k" := (call_bind c (fun x => k))
  (at level 10, x pattern, c at level 100, k at level 200) : result_scope.

(** The vendor endpoint behind the SDK client: what a [create] call
    answers, for the plain and for the streaming overload. *)
Record Transport : Type := {
  create : MessageCreateParams -> RequestOptions -> result Message;
  create_stream : MessageCreateParams -> RequestOptions -> result VendorStream
}.

(** The SDK client as the adapter uses it: the options it was built with
    and the endpoint it talks to. *)
Record Anthropic : Type := {
  apiKey : option jsstring;
  baseURL : option jsstring;
  dangerouslyAllowBrowser : bool;
  transport : Transport
}.

(** [new Anthropic({ apiKey, baseURL, dangerouslyAllowBrowser })]: the
    client's [apiKey] field is the option given or, when that option is
    [undefined], what the SDK reads from the environment variable
    [ANTHROPIC_API_KEY] ([environmentKey], absent when the variable is not
    set); [baseURL] records the option the client is built with. *)
Definition new_Anthropic (environmentKey : option jsstring)
    (endpoint : Transport) (apiKeyOption baseURLOption : option jsstring)
    (allowBrowser : bool) : Anthropic :=
  {| apiKey :=
       match apiKeyOption with
       | Some key => Some key
       | None => environmentKey
       end;
     baseURL := baseURLOption;
     dangerouslyAllowBrowser := allowBrowser;
     transport := endpoint |}.

Definition messages_create (c : Anthropic)
    (body : MessageCreateParams) (options : RequestOptions) : call Message :=
  (create (transport c) body options, [(body, options)]).

Definition messages_create_stream (c : Anthropic)
    (body : MessageCreateParams) (options : RequestOptions)
  : call VendorStream :=
  (create_stream (transport c) body options, [(body, options)]).

(** The steps of the computations that may call the vendor. *)
Ltac run_call :=
  unfold call_bind, lift, try_catch, throw, messages_create,
    messages_create_stream.

(* ================================================================== *)
(** * [AnthropicProvider] *)
(* ================================================================== *)

Record AnthropicProvider : Type := {
  provider : LLMProvider;
  client : Anthropic
}.

Definition DEFAULT_MAX_TOKENS : Z := 8192.

(** [constructor(provider)], in an environment whose
    [ANTHROPIC_API_KEY] is [environmentKey].  The base-class constructor
    ([./base], not among the sources) is taken to store the record that
    the methods read back as [this.provider]; the adapter reads the
    client's [apiKey] again at every call. *)
Definition new_AnthropicProvider (environmentKey : option jsstring)
    (endpoint : Transport) (provider : LLMProvider) : AnthropicProvider :=
  {| provider := provider;
     client :=
       new_Anthropic environmentKey endpoint
         (provider_apiKey provider)
         (if truthy (provider_baseUrl provider)
          then option_map stripTrailingSlashes (provider_baseUrl provider)
          else None)
         true |}.

(** Truthiness and [typeof ... === 'string'] of [systemMessages[0].content]
    (or [undefined]). *)
Definition content_truthy (c : option MessageContent) : bool :=
  match c with
  | None => false
  | Some (ContentString s) => truthy (Some s)
  | Some (ContentParts _) => true
  end.

Definition typeof_string (c : option MessageContent) : bool :=
  match c with
  | Some (ContentString _) => true
  | _ => false
  end.

Definition validateSystemMessages (messages : list RequestMessage)
  : result (option jsstring) :=
  let systemMessages := filter (fun m => Role_eqb (role m) system) messages in
  if (1 <? List.length systemMessages)%nat then
    Throw (Error
      (str "Anthropic does not support more than one system message"))
  else
    let systemMessage :=
      match systemMessages with
      | m :: _ => Some (content m)
      | [] => None
      end in
    if content_truthy systemMessage && negb (typeof_string systemMessage) then
      Throw (Error
        (str "Anthropic only supports string content for system messages"))
    else
      OK (match systemMessage with
          | Some (ContentString s) => Some s
          | _ => None
          end).

Definition isMessageEmpty (message : RequestMessage) : bool :=
  match content message with
  | ContentString s => jseqb (trim s) []
  | ContentParts parts => (List.length parts =? 0)%nat
  end.

Definition SUPPORTED_IMAGE_TYPES : list jsstring :=
  [str "image/jpeg"; str "image/png"; str "image/gif"; str "image/webp"].

Definition validateImageType (mimeType : jsstring) : result unit :=
  if negb (array_includes SUPPORTED_IMAGE_TYPES mimeType) then
    Throw (Error
      (str "Anthropic does not support image type " ++ mimeType
       ++ str ". Supported types: "
       ++ join (str ", ") SUPPORTED_IMAGE_TYPES))
  else OK tt.

(** ** Response normalisation *)

Definition is_tool_use (c : ContentBlock) : bool :=
  match c with ToolUseBlock _ _ _ => true | _ => false end.

Definition is_text (c : ContentBlock) : bool :=
  match c with TextBlock _ => true | _ => false end.

Definition is_thinking (c : ContentBlock) : bool :=
  match c with ThinkingBlock _ _ => true | _ => false end.

(** [c.text] and [c.thinking]; a missing property joins as [''] *)
Definition block_text (c : ContentBlock) : jsstring :=
  match c with TextBlock t => t | _ => [] end.

Definition block_thinking (c : ContentBlock) : jsstring :=
  match c with ThinkingBlock t _ => t | _ => [] end.

Definition parseNonStreamingResponse (response : Message)
  : result LLMResponseNonStreaming :=
  match msg_content response with
  | [] =>
      (* [response.content[0]] is [undefined]: reading [.type] throws *)
      Throw (TypeError
        (str "Cannot read properties of undefined (reading 'type')"))
  | first :: _ =>
      if is_tool_use first then
        Throw (Error (str "Unsupported content type: tool_use"))
      else
        let textContent :=
          join [] (map block_text (filter is_text (msg_content response))) in
        let joined :=
          join [] (map block_thinking
                     (filter is_thinking (msg_content response))) in
        let reasoningContent :=
          if truthy (Some joined) then Some joined else None in
        OK {| resp_id := msg_id response;
              resp_choices :=
                [ {| nsc_finish_reason := msg_stop_reason response;
                     nsc_message :=
                       {| rm_content := textContent;
                          rm_reasoning := reasoningContent;
                          rm_role := msg_role response |} |} ];
              resp_model := msg_model response;
              resp_object := str "chat.completion";
              resp_usage :=
                {| prompt_tokens := input_tokens (msg_usage response);
                   completion_tokens := output_tokens (msg_usage response);
                   total_tokens :=
                     input_tokens (msg_usage response)
                     + output_tokens (msg_usage response) |} |}
  end.

Definition parseStreamingResponseChunk (chunk : MessageStreamEvent)
    (messageId model : jsstring) : result LLMResponseStreaming :=
  match chunk with
  | content_block_delta _ delta =>
      match delta with
      | input_json_delta _ =>
          Throw (Error (str "Unsupported content type: input_json_delta"))
      | _ =>
          OK {| chunk_id := messageId;
                chunk_choices :=
                  [ {| sc_finish_reason := None;
                       sc_delta :=
                         {| delta_content :=
                              match delta with
                              | text_delta text => Some text
                              | _ => None
                              end;
                            delta_reasoning :=
                              match delta with
                              | thinking_delta thinking => Some thinking
                              | _ => None
                              end |} |} ];
                chunk_object := str "chat.completion.chunk";
                chunk_model := model;
                chunk_usage := None |}
      end
  | _ => Throw (Error (str "Unsupported chunk type"))
  end.

(** ** The streaming generator *)

(** The three locals of [streamResponseGenerator]. *)
Record GeneratorState : Type := {
  messageId : jsstring;
  model : jsstring;
  usage : ResponseUsage
}.

Definition initialState : GeneratorState :=
  {| messageId := [];
     model := [];
     usage := {| prompt_tokens := 0; completion_tokens := 0;
                 total_tokens := 0 |} |}.

(** One turn of the [for await] body: the new locals and what is
    yielded. *)
Definition onEvent (st : GeneratorState) (chunk : MessageStreamEvent)
  : result (GeneratorState * list LLMResponseStreaming) :=
  match chunk with
  | message_start message =>
      OK ({| messageId := msg_id message;
             model := msg_model message;
             usage :=
               {| prompt_tokens := input_tokens (msg_usage message);
                  completion_tokens := output_tokens (msg_usage message);
                  total_tokens :=
                    input_tokens (msg_usage message)
                    + output_tokens (msg_usage message) |} |}, [])
  | content_block_delta _ _ =>
      let* c := parseStreamingResponseChunk chunk (messageId st) (model st) in
      OK (st, [c])
  | message_delta _ out =>
      OK ({| messageId := messageId st;
             model := model st;
             usage :=
               {| prompt_tokens := prompt_tokens (usage st);
                  completion_tokens := completion_tokens (usage st) + out;
                  total_tokens := total_tokens (usage st) + out |} |}, [])
  | _ => OK (st, [])
  end.

(** The [for await] loop over the events delivered: the chunks yielded
    and either the final locals or the value thrown by the body. *)
Fixpoint forAwait (st : GeneratorState) (evs : list MessageStreamEvent)
  : list LLMResponseStreaming * result GeneratorState :=
  match evs with
  | [] => ([], OK st)
  | ev :: rest =>
      match onEvent st ev with
      | Throw e => ([], Throw e)
      | OK (st', out) =>
          let (ys, r) := forAwait st' rest in (out ++ ys, r)
      end
  end.

(** What a consumer of the generator observes: the chunks, in order, and
    how the iteration ended ([None]: the generator returned). *)
Record Generated : Type := {
  yielded : list LLMResponseStreaming;
  thrown : option exn
}.

Definition finalChunk (st : GeneratorState) : LLMResponseStreaming :=
  {| chunk_id := messageId st;
     chunk_choices := [];
     chunk_object := str "chat.completion.chunk";
     chunk_model := model st;
     chunk_usage := Some (usage st) |}.

Definition streamResponseGenerator (stream : VendorStream) : Generated :=
  match forAwait initialState (events stream) with
  | (ys, Throw e) => {| yielded := ys; thrown := Some e |}
  | (ys, OK st) =>
      match failure stream with
      | Some e => {| yielded := ys; thrown := Some e |}
      | None => {| yielded := ys ++ [finalChunk st]; thrown := None |}
      end
  end.

(** ** Request translation and the two entry points *)

Section Provider.

(** [parseImageDataUrl] of [utils/llm/image]: splits an image reference
    into [(mimeType, base64Data)], or throws. *)
Variable parseImageDataUrl : jsstring -> result (jsstring * jsstring).

(** The callback of [message.content.map] in [parseRequestMessage]. *)
Definition parseContentPart (part : ContentPart) : result BlockParam :=
  match part with
  | TextContent text => OK (TextBlockParam text)
  | ImageContentPart url =>
      let* (mimeType, base64Data) := parseImageDataUrl url in
      let* _ := validateImageType mimeType in
      OK (ImageBlockParam base64Data mimeType)
  end.

(** [Array.isArray(message.content)] and the elements of the array. *)
Definition isArray (c : MessageContent) : bool :=
  match c with ContentParts _ => true | ContentString _ => false end.

Definition elements (c : MessageContent) : list ContentPart :=
  match c with ContentParts parts => parts | ContentString _ => [] end.

(** A part of the caller as the element of a transmitted array that it
    is when nothing translates it. *)
Definition asBlock (part : ContentPart) : BlockParam :=
  match part with
  | TextContent text => TextBlockParam text
  | ImageContentPart url => ImageUrlPart url
  end.

(** [message.content as string]: a cast, which leaves the value as it
    is; an array stays the caller's array, part for part. *)
Definition asString (c : MessageContent) : ParamContent :=
  match c with
  | ContentString s => ParamString s
  | ContentParts parts => ParamBlocks (map asBlock parts)
  end.

Definition parseRequestMessage (message : RequestMessage)
  : result MessageParam :=
  if negb (Role_eqb (role message) user)
     && negb (Role_eqb (role message) assistant) then
    Throw (Error
      (str "Anthropic does not support role: " ++ Role_name (role message)))
  else if Role_eqb (role message) user && isArray (content message) then
    let* blocks := mapM parseContentPart (elements (content message)) in
    OK {| mp_role := user; mp_content := ParamBlocks blocks |}
  else
    OK {| mp_role := role message;
          mp_content := asString (content message) |}.

(** The message list of the body: system messages out, empty messages
    out, the rest translated. *)
Definition transmitted (msgs : list RequestMessage)
  : list RequestMessage :=
  filter (fun m => negb (isMessageEmpty m))
    (filter (fun m => negb (Role_eqb (role m) system)) msgs).

(** The body passed to [client.messages.create]; [generateResponse] and
    [streamResponse] build the same literal, the latter with
    [stream: true]. *)
Definition createParams (model : ChatModel) (request : LLMRequest)
    (systemMessage : option jsstring) (stream : bool)
  : result MessageCreateParams :=
  let* msgs := mapM parseRequestMessage (transmitted (messages request)) in
  OK {| p_model := req_model request;
        p_messages := msgs;
        p_system := systemMessage;
        p_thinking :=
          match thinking model with
          | Some t =>
              Some {| tc_type := str "enabled";
                      tc_budget_tokens := budget_tokens t |}
          | None => None
          end;
        p_max_tokens :=
          match max_tokens request with
          | Some n => n
          | None =>
              match thinking model with
              | Some t => budget_tokens t + DEFAULT_MAX_TOKENS
              | None => DEFAULT_MAX_TOKENS
              end
          end;
        p_temperature := temperature request;
        p_top_p := top_p request;
        p_stream := stream |}.

(** [{ signal: options?.signal }] *)
Definition requestOptions (options : option LLMOptions) : RequestOptions :=
  {| ro_signal :=
       match options with
       | Some o => signal o
       | None => None
       end |}.

Definition LF : jsstring := [10%N].

Definition corsMessage (self : AnthropicProvider) : jsstring :=
  join LF
    [ str "Provider " ++ provider_id (provider self)
      ++ str " is experiencing a CORS issue. This is a known issue with new individual Anthropic accounts.";
      str "";
      str "To resolve this issue:";
      str "";
      str "1. Go to https://console.anthropic.com/settings/organization";
      str "2. Create a new organization";
      str "3. Your API key should work properly after creating an organization";
      str "";
      str "For more information, please refer to the following issue:";
      str "https://github.com/glowingjade/obsidian-smart-composer/issues/286" ].

Definition invalidKeyMessage (self : AnthropicProvider) : jsstring :=
  str "Provider " ++ provider_id (provider self)
  ++ str " API key is invalid. Please update it in settings menu.".

Definition missingKeyMessage (self : AnthropicProvider) : jsstring :=
  str "Provider " ++ provider_id (provider self)
  ++ str " API key is missing. Please set it in settings menu.".

(** The [catch (error)] clause shared by both entry points: the value
    it throws. *)
Definition onCreateError (self : AnthropicProvider) (error : exn) : exn :=
  if isAuthenticationError error then
    if includes (exn_message error)
         (str "CORS requests are not allowed for this Organization")
    then LLMAPIKeyInvalidException (corsMessage self) error
    else LLMAPIKeyInvalidException (invalidKeyMessage self) error
  else error.

Definition generateResponse (self : AnthropicProvider) (model : ChatModel)
    (request : LLMRequest) (options : option LLMOptions)
  : call LLMResponseNonStreaming :=
  if negb (jseqb (providerType model) (str "anthropic")) then
    throw (Error (str "Model is not a Anthropic model"))
  else if negb (truthy (apiKey (client self))) then
    throw (LLMAPIKeyNotSetException (missingKeyMessage self))
  else
    let> systemMessage := lift (validateSystemMessages (messages request)) in
    try_catch
      (let> body := lift (createParams model request systemMessage false) in
       let> response :=
         messages_create (client self) body (requestOptions options) in
       lift (parseNonStreamingResponse response))
      (fun error => throw (onCreateError self error)).

(** The iterable returned is represented by what iterating it to the
    end delivers. *)
Definition streamResponse (self : AnthropicProvider) (model : ChatModel)
    (request : LLMRequest) (options : option LLMOptions)
  : call Generated :=
  if negb (jseqb (providerType model) (str "anthropic")) then
    throw (Error (str "Model is not a Anthropic model"))
  else if negb (truthy (apiKey (client self))) then
    throw (LLMAPIKeyNotSetException (missingKeyMessage self))
  else
    let> systemMessage := lift (validateSystemMessages (messages request)) in
    try_catch
      (let> body := lift (createParams model request systemMessage true) in
       let> stream :=
         messages_create_stream (client self) body (requestOptions options) in
       lift (OK (streamResponseGenerator stream)))
      (fun error => throw (onCreateError self error)).

End Provider.

(** [getEmbedding(_model, _text)] *)
Definition getEmbedding (self : AnthropicProvider) (_model _text : jsstring)
  : result (list number) :=
  Throw (Error
    (str "Provider " ++ provider_id (provider self)
     ++ str " does not support embeddings. Please use a different provider.")).

(** The text before the first semicolon and the text after it. *)
Fixpoint splitAtSemicolon (s : jsstring) : option (jsstring * jsstring) :=
  match s with
  | [] => None
  | c :: rest =>
      if N.eqb c 59 then Some ([], rest)
      else match splitAtSemicolon rest with
           | Some (before, after) => Some (c :: before, after)
           | None => None
           end
  end.

(** Modelled from the spec: the image source resolver ([parseImageDataUrl]
    of [utils/llm/image]) is not among the sources.  Following sections 4.2
    and 6 of the specification, an embedded-data reference is a scheme, a
    mime type and an encoded payload, [data:<mime>;base64,<payload>], and
    anything else is a malformed reference.  The properties below hold for
    every resolver; this one serves the sample runs. *)
Definition decode (reference : jsstring) : result (jsstring * jsstring) :=
  if startsWith reference (str "data:") then
    match splitAtSemicolon (skipn 5 reference) with
    | Some (mimeType, rest) =>
        if startsWith rest (str "base64,") then OK (mimeType, skipn 7 rest)
        else Throw (Error (str "MalformedImageReference"))
    | None => Throw (Error (str "MalformedImageReference"))
    end
  else Throw (Error (str "MalformedImageReference")).

(* ================================================================== *)
(** * Settings migration ([settings/schema/settings.ts]) *)
(* ================================================================== *)

Section Settings.

(** A settings object ([Record<string, unknown>]) and the validated
    settings; [./setting.types] and [./migrations] are not among the
    sources, so the objects, the schema, the schema version and the
    migration table are parameters. *)
Variable Data : Type.
Variable SmartComposerSettings : Type.

(** [data.version], a number when the field is present. *)
Variable version : Data -> option Z.

(** The object literal [{}]. *)
Variable emptyObject : Data.

(** [smartComposerSettingsSchema.parse] *)
Variable schemaParse : Data -> result SmartComposerSettings.

Variable SETTINGS_SCHEMA_VERSION : Z.

(** An entry of [SETTING_MIGRATIONS]. *)
Record SettingMigration : Type := {
  fromVersion : Z;
  toVersion : Z;
  migrate : Data -> result Data
}.

Variable SETTING_MIGRATIONS : list SettingMigration.

(** The value handed to [parseSmartComposerSettings] is [unknown]; the
    plugin passes what it loaded, which is [null] on a first run.
    [{ ...data }] of [null] is [{}]. *)
Definition spread (data : option Data) : Data :=
  match data with
  | Some d => d
  | None => emptyObject
  end.

(** The test of the [if] in the loop of [migrateSettings]. *)
Definition applies (currentVersion : Z) (migration : SettingMigration)
  : bool :=
  (fromVersion migration <=? currentVersion)
  && (currentVersion <? toVersion migration)
  && (toVersion migration <=? SETTINGS_SCHEMA_VERSION).

(** The [for ... of] loop of [migrateSettings] over the remaining
    migrations: the outcome and the pairs [(fromVersion, toVersion)] written
    by [console.log], in order. *)
Fixpoint migrateLoop (migrations : list SettingMigration)
    (currentData : Data) (currentVersion : Z)
  : result Data * list (Z * Z) :=
  match migrations with
  | [] => (OK currentData, [])
  | migration :: rest =>
      if applies currentVersion migration then
        let entry := (fromVersion migration, toVersion migration) in
        match migrate migration currentData with
        | Throw e => (Throw e, [entry])
        | OK migrated =>
            let (r, logged) := migrateLoop rest migrated (toVersion migration)
            in (r, entry :: logged)
        end
      else migrateLoop rest currentData currentVersion
  end.

Definition migrateSettings (data : option Data)
  : result Data * list (Z * Z) :=
  let currentData := spread data in
  let currentVersion :=
    match version currentData with
    | Some v => v
    | None => 0
    end in
  migrateLoop SETTING_MIGRATIONS currentData currentVersion.

(** The outcome, and whether [console.warn] reported invalid settings. *)
Definition parseSmartComposerSettings (data : option Data)
  : result SmartComposerSettings * bool :=
  match (let* migratedData := fst (migrateSettings data) in
         schemaParse migratedData) with
  | OK settings => (OK settings, false)
  | Throw _ => (schemaParse emptyObject, true)
  end.

End Settings.

Arguments fromVersion {Data} _.
Arguments toVersion {Data} _.
Arguments migrate {Data} _ _.
Arguments spread {Data} emptyObject data.
Arguments applies {Data} SETTINGS_SCHEMA_VERSION currentVersion migration.
Arguments migrateLoop {Data} SETTINGS_SCHEMA_VERSION migrations
  currentData currentVersion.
Arguments migrateSettings {Data} version emptyObject SETTINGS_SCHEMA_VERSION
  SETTING_MIGRATIONS data.
Arguments parseSmartComposerSettings {Data SmartComposerSettings} version
  emptyObject schemaParse SETTINGS_SCHEMA_VERSION SETTING_MIGRATIONS data.

(* ================================================================== *)
(** * The thinking-budget editor of the model settings modal *)
(* ================================================================== *)

(** [chatModelSchema.safeParse(...)]: success, or the messages of the
    issues. *)
Inductive SafeParseResult : Type :=
| Success
| Failure (issues : list jsstring).

(** What [handleSubmit] ends with: a [Notice] shown to the user and
    nothing saved, or the chat models handed to [plugin.setSettings]
    (the other settings are spread unchanged) before the modal closes. *)
Inductive SubmitOutcome : Type :=
| Notice (message : jsstring)
| Saved (chatModels : list ChatModel).

Section ThinkingSettings.

(** [parseInt(text, 10)], [None] standing for [NaN]. *)
Variable parseInt10 : jsstring -> option Z.

(** [chatModelSchema] ([types/chat-model.types], not among the
    sources). *)
Variable safeParse : ChatModel -> SafeParseResult.

(** [{ ...typedModel, thinking: { budget_tokens: parsedTokens } }] *)
Definition withBudget (typedModel : ChatModel) (parsedTokens : Z)
  : ChatModel :=
  {| providerType := providerType typedModel;
     chat_model_id := chat_model_id typedModel;
     thinking := Some {| budget_tokens := parsedTokens |} |}.

(** [handleSubmit] of the "Claude 3.7 Sonnet Thinking" settings, on the
    edited model, the text of the input field and the chat models of the
    current settings. *)
Definition handleSubmit (typedModel : ChatModel) (budgetTokens : jsstring)
    (chatModels : list ChatModel) : SubmitOutcome :=
  match parseInt10 budgetTokens with
  | None => Notice (str "Please enter a valid number")
  | Some parsedTokens =>
      if parsedTokens <? 1024 then
        Notice (str "Budget tokens must be at least 1024")
      else
        let updatedModel := withBudget typedModel parsedTokens in
        match safeParse updatedModel with
        | Failure issues => Notice (join LF issues)
        | Success =>
            Saved
              (map (fun m =>
                      if jseqb (chat_model_id m) (chat_model_id typedModel)
                      then updatedModel else m)
                   chatModels)
        end
  end.

End ThinkingSettings.

(* ================================================================== *)
(** * Vocabulary of the properties *)
(* ================================================================== *)

(** A content-delta event that carries tool input, the one delta kind
    [parseStreamingResponseChunk] refuses. *)
Definition carriesToolInput (ev : MessageStreamEvent) : bool :=
  match ev with
  | content_block_delta _ (input_json_delta _) => true
  | _ => false
  end.

(** A chunk sequence that ends with a chunk of empty [choices] carrying
    [usage], every chunk before it having a choice and no [usage]. *)
Definition endsWithOneUsageChunk (chunks : list LLMResponseStreaming)
  : Prop :=
  exists before final u,
    chunks = before ++ [final]
    /\ chunk_choices final = []
    /\ chunk_usage final = Some u
    /\ Forall (fun c => chunk_usage c = None /\ chunk_choices c <> [])
              before.

(** The output-token increment a metadata-delta event reports. *)
Definition increment (ev : MessageStreamEvent) : Z :=
  match ev with
  | message_delta _ out => out
  | _ => 0
  end.

Definition sumIncrements (evs : list MessageStreamEvent) : Z :=
  fold_right (fun ev acc => increment ev + acc) 0 evs.

(** The last stream-start event of a stream with the events after it. *)
Fixpoint lastStart (evs : list MessageStreamEvent)
  : option (Message * list MessageStreamEvent) :=
  match evs with
  | [] => None
  | ev :: rest =>
      match lastStart rest with
      | Some found => Some found
      | None =>
          match ev with
          | message_start m => Some (m, rest)
          | _ => None
          end
      end
  end.

(** Completion tokens as seeded and accumulated: the snapshot of the last
    stream-start event plus the increments reported after it. *)
Definition seededCompletion (evs : list MessageStreamEvent) : Z :=
  match lastStart evs with
  | Some (m, after) => output_tokens (msg_usage m) + sumIncrements after
  | None => sumIncrements evs
  end.

(** An empty message in the words of the specification: string content
    of white space only, or multi-part content of length zero. *)
Definition emptyContent (m : RequestMessage) : bool :=
  match content m with
  | ContentString s => forallb isWhiteSpace s
  | ContentParts [] => true
  | ContentParts (_ :: _) => false
  end.

(** The same reading of a transmitted message. *)
Definition isParamEmpty (m : MessageParam) : bool :=
  match mp_content m with
  | ParamString s => forallb isWhiteSpace s
  | ParamBlocks [] => true
  | ParamBlocks (_ :: _) => false
  end.

Definition isSystem (m : RequestMessage) : bool := Role_eqb (role m) system.

(** The request without its empty non-system messages. *)
Definition withoutEmptyMessages (request : LLMRequest) : LLMRequest :=
  {| messages :=
       filter (fun m => isSystem m || negb (emptyContent m))
              (messages request);
     req_model := req_model request;
     max_tokens := max_tokens request;
     temperature := temperature request;
     top_p := top_p request |}.

(** The two rejections of the system-message check, which the error
    taxonomy calls [UnsupportedRequestShape]. *)
Definition UnsupportedRequestShape (e : exn) : Prop :=
  e = Error (str "Anthropic does not support more than one system message")
  \/ e = Error
           (str "Anthropic only supports string content for system messages").

(** The rejection of an image type ([UnsupportedImageType]); the message
    names the refused type and lists the allowed ones. *)
Definition unsupportedImageMessage (mimeType : jsstring) : jsstring :=
  str "Anthropic does not support image type " ++ mimeType
  ++ str ". Supported types: image/jpeg, image/png, image/gif, image/webp".

Definition UnsupportedImageType (e : exn) : Prop :=
  exists mimeType,
    ~ In mimeType SUPPORTED_IMAGE_TYPES
    /\ e = Error (unsupportedImageMessage mimeType).

(** The text segments of a reply, in order; blocks of any other type
    contribute nothing. *)
Fixpoint textSegments (blocks : list ContentBlock) : list jsstring :=
  match blocks with
  | [] => []
  | TextBlock t :: rest => t :: textSegments rest
  | _ :: rest => textSegments rest
  end.

(** The model's provider tag is this adapter's vendor. *)
Definition isAnthropicModel (model : ChatModel) : Prop :=
  providerType model = str "anthropic".

(** The classification of a failure [e] of the vendor call into the
    value [thrownValue] an entry point throws: an authentication error
    becomes [LLMAPIKeyInvalidException], with the organization guidance
    when the vendor's message contains the CORS restriction text and with
    the generic message otherwise; anything else is passed through. *)
Definition classifiedAs (self : AnthropicProvider) (e thrownValue : exn)
  : Prop :=
  (forall msg,
      e = AuthenticationError msg ->
      includes msg (str "CORS requests are not allowed for this Organization")
      = true ->
      thrownValue = LLMAPIKeyInvalidException (corsMessage self) e)
  /\ (forall msg,
        e = AuthenticationError msg ->
        includes msg
          (str "CORS requests are not allowed for this Organization")
        = false ->
        thrownValue = LLMAPIKeyInvalidException (invalidKeyMessage self) e)
  /\ (isAuthenticationError e = false -> thrownValue = e).

(** The image references of the user-role messages all decode, under
    the given resolver. *)
Definition userImagesDecode
    (parseImageDataUrl : jsstring -> result (jsstring * jsstring))
    (msgs : list RequestMessage) : Prop :=
  forall m parts url,
    In m msgs -> role m = user -> content m = ContentParts parts ->
    In (ImageContentPart url) parts ->
    exists r, parseImageDataUrl url = OK r.

(** The deltas of the content-delta events of a stream, in order. *)
Fixpoint contentDeltas (evs : list MessageStreamEvent) : list RawDelta :=
  match evs with
  | [] => []
  | content_block_delta _ d :: rest => d :: contentDeltas rest
  | _ :: rest => contentDeltas rest
  end.

(** The choice that carries a delta: text as [content], thinking as
    [reasoning], nothing for the other kinds. *)
Definition choiceOf (d : RawDelta) : StreamingChoice :=
  {| sc_finish_reason := None;
     sc_delta :=
       match d with
       | text_delta text =>
           {| delta_content := Some text; delta_reasoning := None |}
       | thinking_delta thinking =>
           {| delta_content := None; delta_reasoning := Some thinking |}
       | _ => {| delta_content := None; delta_reasoning := None |}
       end |}.

Definition isStart (ev : MessageStreamEvent) : bool :=
  match ev with
  | message_start _ => true
  | _ => false
  end.

(** The thinking segments of a reply, in order. *)
Fixpoint thinkingSegments (blocks : list ContentBlock) : list jsstring :=
  match blocks with
  | [] => []
  | ThinkingBlock t _ :: rest => t :: thinkingSegments rest
  | _ :: rest => thinkingSegments rest
  end.

(** A message as it is transmitted when nothing has to be translated. *)
Definition verbatim (m : RequestMessage) : MessageParam :=
  {| mp_role := role m; mp_content := asString (content m) |}.

(** The messages that are neither system-role nor empty. *)
Definition isKept (m : RequestMessage) : bool :=
  negb (isSystem m) && negb (emptyContent m).

(** A content part and the vendor block it is translated to. *)
Definition partTranslated
    (parseImageDataUrl : jsstring -> result (jsstring * jsstring))
    (part : ContentPart) (block : BlockParam) : Prop :=
  match part with
  | TextContent text => block = TextBlockParam text
  | ImageContentPart url =>
      exists mimeType base64Data,
        parseImageDataUrl url = OK (mimeType, base64Data)
        /\ In mimeType SUPPORTED_IMAGE_TYPES
        /\ block = ImageBlockParam base64Data mimeType
  end.

(** A run of [k] slashes. *)
Definition slashes (k : nat) : jsstring := repeat 47%N k.

(** The migrations applied one after the other, the first failure ending
    the run. *)
Fixpoint applyAll {Data : Type} (migrations : list (SettingMigration Data))
    (data : Data) : result Data :=
  match migrations with
  | [] => OK data
  | m :: rest => let* migrated := migrate m data in applyAll rest migrated
  end.

(** A migration table that goes up one version at a time from [k]. *)
Fixpoint contiguousFrom {Data : Type} (k : Z)
    (migrations : list (SettingMigration Data)) : Prop :=
  match migrations with
  | [] => True
  | m :: rest =>
      fromVersion m = k /\ toVersion m = k + 1 /\ contiguousFrom (k + 1) rest
  end.

(** A log of migrations that climbs: each logged migration starts at or
    below the version reached so far, ends strictly above it and not
    above the schema version. *)
Fixpoint climbs (schemaVersion reached : Z) (logged : list (Z * Z)) : Prop :=
  match logged with
  | [] => True
  | (from, to) :: rest =>
      from <= reached /\ reached < to /\ to <= schemaVersion
      /\ climbs schemaVersion to rest
  end.

(* ================================================================== *)
(** * Sample inputs *)
(* ================================================================== *)

(** A stream-start snapshot as the vendor sends it: the prompt is counted
    and one output token is already reported. *)
Definition sampleStart : Message :=
  {| msg_id := str "msg_01";
     msg_content := [];
     msg_model := str "claude-3-7-sonnet";
     msg_role := assistant;
     msg_stop_reason := None;
     msg_usage := {| input_tokens := 3; output_tokens := 1 |} |}.

(** Three content deltas, one metadata delta, then the end of the
    stream. *)
Definition textStream : VendorStream :=
  {| events :=
       [ message_start sampleStart;
         content_block_start 0 (TextBlock []);
         content_block_delta 0 (text_delta (str "Hel"));
         content_block_delta 0 (text_delta (str "lo"));
         content_block_delta 0 (text_delta (str "!"));
         content_block_stop 0;
         message_delta (Some (str "end_turn")) 5;
         message_stop ];
     failure := None |}.

(** A stream in which the vendor starts a tool invocation after some
    text. *)
Definition toolStream : VendorStream :=
  {| events :=
       [ message_start sampleStart;
         content_block_delta 0 (text_delta (str "Hi"));
         content_block_delta 1 (input_json_delta (str "{")) ];
     failure := None |}.

Definition userText (s : string) : RequestMessage :=
  {| role := user; content := ContentString (str s) |}.

Definition systemText (s : string) : RequestMessage :=
  {| role := system; content := ContentString (str s) |}.

Definition requestOf (msgs : list RequestMessage) : LLMRequest :=
  {| messages := msgs;
     req_model := str "claude-3-7-sonnet-latest";
     max_tokens := None;
     temperature := None;
     top_p := None |}.

(** The scenario of the spec, with a whitespace-only turn added. *)
Definition terseRequest : LLMRequest :=
  requestOf [systemText "Be terse"; userText "Hi"; userText "  "].

Definition twoSystemsRequest : LLMRequest :=
  requestOf [systemText "Be terse"; systemText "Be kind"; userText "Hi"].

Definition bmpPart : ContentPart :=
  ImageContentPart (str "data:image/bmp;base64,Qk0=").

Definition bmpRequest : LLMRequest :=
  requestOf
    [ {| role := user;
         content := ContentParts [TextContent (str "What is this?"); bmpPart] |} ].

(** An earlier assistant turn replayed with multi-part content. *)
Definition assistantParts : RequestMessage :=
  {| role := assistant;
     content := ContentParts [TextContent (str "Here it is"); bmpPart] |}.

Definition assistantBmpRequest : LLMRequest :=
  requestOf [userText "Draw a cat"; assistantParts; userText "Thanks"].

Definition anthropicModel : ChatModel :=
  {| providerType := str "anthropic";
     chat_model_id := str "claude-3.7-sonnet";
     thinking := None |}.

Definition thinkingModel : ChatModel :=
  {| providerType := str "anthropic";
     chat_model_id := str "claude-3.7-sonnet-thinking";
     thinking := Some {| budget_tokens := 1024 |} |}.

Definition openaiModel : ChatModel :=
  {| providerType := str "openai";
     chat_model_id := str "gpt-4o";
     thinking := None |}.

Definition sampleReply : Message :=
  {| msg_id := str "msg_01";
     msg_content :=
       [ ThinkingBlock (str "hm") (str "sig");
         TextBlock (str "Hel");
         ToolUseBlock (str "toolu_01") (str "search") (str "{}");
         TextBlock (str "lo") ];
     msg_model := str "claude-3-7-sonnet";
     msg_role := assistant;
     msg_stop_reason := Some (str "end_turn");
     msg_usage := {| input_tokens := 3; output_tokens := 6 |} |}.

(** An endpoint that answers every call. *)
Definition answeringEndpoint : Transport :=
  {| create := fun _ _ => OK sampleReply;
     create_stream := fun _ _ => OK textStream |}.

(** An endpoint that fails every call with the given value. *)
Definition failingEndpoint (e : exn) : Transport :=
  {| create := fun _ _ => Throw e;
     create_stream := fun _ _ => Throw e |}.

Definition providerWithKey (key : option jsstring) : LLMProvider :=
  {| provider_id := str "anthropic";
     provider_apiKey := key;
     provider_baseUrl := None |}.

Definition keyedAdapter (endpoint : Transport) : AnthropicProvider :=
  new_AnthropicProvider None endpoint
    (providerWithKey (Some (str "sk-ant-1"))).

(** No key in the provider record and none in the environment. *)
Definition keylessAdapter (endpoint : Transport) : AnthropicProvider :=
  new_AnthropicProvider None endpoint (providerWithKey None).

(** The vendor's answer to a browser call from a new individual
    account, and an ordinary rejection of a key. *)
Definition corsError : exn :=
  AuthenticationError
    (str "401 CORS requests are not allowed for this Organization because custom headers were not sent").

Definition badKeyError : exn :=
  AuthenticationError (str "401 invalid x-api-key").

Definition overloadedError : exn :=
  VendorError (str "InternalServerError") (str "529 Overloaded").

(** The body sent for [terseRequest]. *)
Definition terseBody (thinkingConfig : option ThinkingConfigParam)
    (maxTokens : Z) (stream : bool) : MessageCreateParams :=
  {| p_model := str "claude-3-7-sonnet-latest";
     p_messages :=
       [ {| mp_role := user; mp_content := ParamString (str "Hi") |} ];
     p_system := Some (str "Be terse");
     p_thinking := thinkingConfig;
     p_max_tokens := maxTokens;
     p_temperature := None;
     p_top_p := None;
     p_stream := stream |}.

Definition noSignal : RequestOptions := {| ro_signal := None |}.

(** What the SDK throws when the caller's signal aborts the request. *)
Definition abortError : exn :=
  VendorError (str "APIUserAbortError") (str "Request was aborted.").

(** A stream cancelled after its first content delta. *)
Definition cancelledStream : VendorStream :=
  {| events :=
       [ message_start sampleStart;
         content_block_delta 0 (text_delta (str "Hel")) ];
     failure := Some abortError |}.

Definition pngPart : ContentPart :=
  ImageContentPart (str "data:image/png;base64,iVBORw0KGgo=").

Definition pngMessage : RequestMessage :=
  {| role := user;
     content := ContentParts [TextContent (str "What is this?"); pngPart] |}.

Definition pngRequest : LLMRequest := requestOf [pngMessage].

(** The body sent for [pngRequest]. *)
Definition pngBody : MessageCreateParams :=
  {| p_model := str "claude-3-7-sonnet-latest";
     p_messages :=
       [ {| mp_role := user;
            mp_content :=
              ParamBlocks
                [ TextBlockParam (str "What is this?");
                  ImageBlockParam (str "iVBORw0KGgo=") (str "image/png") ] |} ];
     p_system := None;
     p_thinking := None;
     p_max_tokens := 8192;
     p_temperature := None;
     p_top_p := None;
     p_stream := false |}.

(** A request with an image reference that is no data URL. *)
Definition brokenImageRequest : LLMRequest :=
  requestOf
    [ {| role := user;
         content := ContentParts [ImageContentPart (str "cat.png")] |} ].

(** A reply without content blocks, and the endpoint that sends it. *)
Definition emptyReply : Message :=
  {| msg_id := str "msg_02";
     msg_content := [];
     msg_model := str "claude-3-7-sonnet";
     msg_role := assistant;
     msg_stop_reason := Some (str "end_turn");
     msg_usage := {| input_tokens := 3; output_tokens := 0 |} |}.

Definition emptyReplyEndpoint : Transport :=
  {| create := fun _ _ => OK emptyReply;
     create_stream := fun _ _ => OK textStream |}.

(** Settings objects for the sample runs: the version field and the
    names of the other fields. *)
Definition SampleData : Type := (option Z * list string)%type.

Definition sampleVersion (d : SampleData) : option Z := fst d.

(** A migration table of two steps, each adding a field and writing the
    new version. *)
Definition sampleMigrations : list (SettingMigration SampleData) :=
  [ {| fromVersion := 0; toVersion := 1;
       migrate := fun d => OK (Some 1, "providers"%string :: snd d) |};
    {| fromVersion := 1; toVersion := 2;
       migrate := fun d => OK (Some 2, "chatModels"%string :: snd d) |} ].

(** A schema that wants the two fields. *)
Definition sampleSchema (d : SampleData) : result (list string) :=
  if (List.length (snd d) =? 2)%nat then OK (snd d)
  else Throw (Error (str "ZodError")).

(** A schema with defaults for every field. *)
Definition lenientSchema (d : SampleData) : result (list string) :=
  OK (snd d).

(** [terseRequest] with a cap of its own. *)
Definition cappedRequest : LLMRequest :=
  {| messages := messages terseRequest;
     req_model := req_model terseRequest;
     max_tokens := Some 4096;
     temperature := None;
     top_p := None |}.

(** A user turn with an image of an unsupported type followed by a
    reference that is no data URL. *)
Definition bmpThenBrokenMessage : RequestMessage :=
  {| role := user;
     content := ContentParts [bmpPart; ImageContentPart (str "cat.png")] |}.

Definition bmpThenBrokenRequest : LLMRequest :=
  requestOf [userText "Look"; bmpThenBrokenMessage].

(** A request with sampling parameters of its own, and a caller's
    options with an abort signal. *)
Definition tunedRequest : LLMRequest :=
  {| messages := [userText "Hi"];
     req_model := str "claude-3-5-haiku-latest";
     max_tokens := None;
     temperature := Some (QArith_base.Qmake 7 10);
     top_p := Some (QArith_base.Qmake 9 10) |}.

Definition abortable : option LLMOptions := Some {| signal := Some 7%nat |}.

(** A conversation with a supported image in a user turn and the
    multi-part assistant turn [assistantParts], and the body sent for it. *)
Definition pngThenAssistantRequest : LLMRequest :=
  requestOf [pngMessage; assistantParts].

Definition pngThenAssistantBody : MessageCreateParams :=
  {| p_model := str "claude-3-7-sonnet-latest";
     p_messages :=
       [ {| mp_role := user;
            mp_content :=
              ParamBlocks
                [ TextBlockParam (str "What is this?");
                  ImageBlockParam (str "iVBORw0KGgo=") (str "image/png") ] |};
         {| mp_role := assistant;
            mp_content :=
              ParamBlocks
                [ TextBlockParam (str "Here it is");
                  ImageUrlPart (str "data:image/bmp;base64,Qk0=") ] |} ];
     p_system := None;
     p_thinking := None;
     p_max_tokens := 8192;
     p_temperature := None;
     p_top_p := None;
     p_stream := false |}.

(* ================================================================== *)
(** * Properties of strings and traversals *)
(* ================================================================== *)

Lemma jseqb_eq a b : jseqb a b = true <-> a = b.
Proof.
  unfold jseqb. destruct (list_eq_dec N.eq_dec a b); split; intros H;
    congruence.
Qed.

Lemma jseqb_refl a : jseqb a a = true.
Proof. apply jseqb_eq. reflexivity. Qed.

Lemma trimStart_empty s :
  trimStart s = [] <-> forallb isWhiteSpace s = true.
Proof.
  induction s as [| c s IH]; simpl; [tauto |].
  destruct (isWhiteSpace c); simpl; [exact IH |].
  split; discriminate.
Qed.

Lemma trimStart_head s c rest :
  trimStart s = c :: rest -> isWhiteSpace c = false.
Proof.
  induction s as [| d s IH]; simpl; [discriminate |].
  destruct (isWhiteSpace d) eqn:W; [exact IH |].
  intros H; injection H as <- _. exact W.
Qed.

Lemma forallb_rev {A} (f : A -> bool) l : forallb f (rev l) = forallb f l.
Proof.
  induction l as [| x l IH]; simpl; [reflexivity |].
  rewrite forallb_app, IH. simpl. rewrite andb_true_r. apply andb_comm.
Qed.

(** [s.trim() === ''] holds exactly for the strings made of white space
    only. *)
Lemma trim_empty s : jseqb (trim s) [] = forallb isWhiteSpace s.
Proof.
  destruct (forallb isWhiteSpace s) eqn:W.
  - apply jseqb_eq. unfold trim, trimEnd.
    apply trimStart_empty in W. rewrite W. reflexivity.
  - destruct (jseqb (trim s) []) eqn:E; [| reflexivity].
    apply jseqb_eq in E. unfold trim, trimEnd in E.
    apply (f_equal (@rev code_unit)) in E. rewrite rev_involutive in E.
    simpl in E. apply trimStart_empty in E. rewrite forallb_rev in E.
    destruct (trimStart s) as [| c rest] eqn:T.
    + apply trimStart_empty in T. congruence.
    + apply trimStart_head in T. simpl in E. rewrite T in E. discriminate.
Qed.

Lemma array_includes_In arr x : array_includes arr x = true <-> In x arr.
Proof.
  unfold array_includes. rewrite existsb_exists. split.
  - intros (y & Hy & E). apply jseqb_eq in E. subst. exact Hy.
  - intros H. exists x. split; [exact H | apply jseqb_eq; reflexivity].
Qed.

Lemma join_empty_concat l : join [] l = List.concat l.
Proof.
  induction l as [| x [| y rest] IH]; simpl in *.
  - reflexivity.
  - rewrite app_nil_r. reflexivity.
  - rewrite IH. reflexivity.
Qed.

Lemma filter_filter {A} (f g : A -> bool) l :
  filter f (filter g l) = filter (fun x => g x && f x) l.
Proof.
  induction l as [| x rest IH]; simpl; [reflexivity |].
  destruct (g x); simpl; [destruct (f x) |]; rewrite ?IH; reflexivity.
Qed.

Lemma mapM_Forall2 {A B} (f : A -> result B) l : forall l',
  mapM f l = OK l' -> Forall2 (fun x y => f x = OK y) l l'.
Proof.
  induction l as [| x rest IH]; simpl; intros l' H.
  - injection H as <-. constructor.
  - destruct (f x) as [y | e] eqn:E; simpl in H; [| discriminate].
    destruct (mapM f rest) as [ys | e]; simpl in H; [| discriminate].
    injection H as <-. constructor; auto.
Qed.

Lemma mapM_length {A B} (f : A -> result B) l l' :
  mapM f l = OK l' -> List.length l' = List.length l.
Proof.
  intros H. apply mapM_Forall2 in H. symmetry.
  eapply Forall2_length; eauto.
Qed.

(** A traversal throws exactly when some element does, and then it
    throws what the first such element throws. *)
Lemma mapM_first_throw {A B} (f : A -> result B) (P : exn -> Prop) l :
  (forall x e, In x l -> f x = Throw e -> P e) ->
  (exists x e, In x l /\ f x = Throw e) ->
  exists e, mapM f l = Throw e /\ P e.
Proof.
  induction l as [| x rest IH]; simpl; intros HP (y & e & Hin & Hy).
  - contradiction.
  - destruct (f x) as [b | e'] eqn:E; simpl.
    + destruct Hin as [-> | Hin]; [congruence |].
      destruct IH as (e2 & -> & Pe2).
      * intros x' e' Hx'. apply HP. right. exact Hx'.
      * exists y, e. auto.
      * simpl. eauto.
    + exists e'. split; [reflexivity |].
      apply (HP x e'); [left; reflexivity | exact E].
Qed.

Lemma mapM_throw_inv {A B} (f : A -> result B) l e :
  mapM f l = Throw e -> exists x, In x l /\ f x = Throw e.
Proof.
  induction l as [| x rest IH]; simpl; intros H; [discriminate |].
  destruct (f x) as [y | e'] eqn:E; simpl in H.
  - destruct (mapM f rest) as [ys | e'']; simpl in H; [discriminate |].
    injection H as ->. destruct IH as (x' & Hin & Hx'); eauto.
  - injection H as ->. eauto.
Qed.

(** A traversal whose elements before a throwing one succeed or throw
    within [P], and whose throwing element throws within [P], throws
    within [P]. *)
Lemma mapM_throw_after_prefix {A B} (f : A -> result B) (P : exn -> Prop)
    before x after ex :
  (forall y e, In y before -> f y = Throw e -> P e) ->
  f x = Throw ex -> P ex ->
  exists e, mapM f (before ++ x :: after) = Throw e /\ P e.
Proof.
  intros Hbefore Hx Px.
  induction before as [| y rest IH]; simpl.
  - rewrite Hx. simpl. eauto.
  - destruct (f y) as [b | e] eqn:E; simpl.
    + destruct IH as (e & -> & Pe).
      * intros z e Hz. apply Hbefore. right. exact Hz.
      * simpl. eauto.
    + exists e. split; [reflexivity |].
      apply (Hbefore y e); [left; reflexivity | exact E].
Qed.

Lemma startsWith_app s : forall sub t,
  startsWith s sub = true -> startsWith (s ++ t) sub = true.
Proof.
  induction s as [| c s IH]; intros [| p sub] t H.
  - destruct t; reflexivity.
  - discriminate.
  - reflexivity.
  - simpl in *. apply andb_prop in H as [-> H]. simpl. apply IH. exact H.
Qed.

Lemma includes_app_l s : forall sub t,
  includes s sub = true -> includes (s ++ t) sub = true.
Proof.
  induction s as [| c s IH]; intros sub t H.
  - simpl in H. rewrite orb_false_r in H.
    destruct sub; [| discriminate]. destruct t; reflexivity.
  - change (startsWith (c :: s) sub || includes s sub = true) in H.
    change (startsWith (c :: s ++ t) sub || includes (s ++ t) sub = true).
    apply orb_prop in H as [H | H].
    + apply orb_true_iff. left. exact (startsWith_app (c :: s) sub t H).
    + apply orb_true_iff. right. exact (IH _ t H).
Qed.

Lemma includes_app_r t : forall s sub,
  includes s sub = true -> includes (t ++ s) sub = true.
Proof.
  induction t as [| c t IH]; intros s sub H; [exact H |].
  change (startsWith (c :: t ++ s) sub || includes (t ++ s) sub = true).
  apply orb_true_iff. right. exact (IH _ _ H).
Qed.

(** The guidance of the CORS message does not depend on the provider
    id, and the message is not the generic one. *)
Lemma corsMessage_guidance self :
  includes (corsMessage self) (str "Create a new organization") = true.
Proof.
  unfold corsMessage.
  match goal with
  | |- includes (join LF (?first :: ?rest)) _ = true =>
      change (join LF (first :: rest)) with (first ++ LF ++ join LF rest)
  end.
  apply includes_app_r. apply includes_app_r. vm_compute. reflexivity.
Qed.

Lemma corsMessage_distinct self : corsMessage self <> invalidKeyMessage self.
Proof.
  unfold corsMessage, invalidKeyMessage.
  match goal with
  | |- join LF (?first :: ?rest) <> _ =>
      change (join LF (first :: rest)) with (first ++ LF ++ join LF rest)
  end.
  rewrite <- !app_assoc. intros H.
  apply app_inv_head in H. apply app_inv_head in H. discriminate.
Qed.

(* ================================================================== *)
(** * Properties of the streaming generator *)
(* ================================================================== *)

Lemma onEvent_yields_no_usage st ev st' out :
  onEvent st ev = OK (st', out) ->
  Forall (fun c => chunk_usage c = None /\ chunk_choices c <> []) out.
Proof.
  destruct ev as [m | sr n | | i b | i d | i]; simpl; intros H;
    try (injection H as <- <-; constructor).
  destruct d; simpl in H; try discriminate;
    injection H as <- <-; repeat constructor; simpl; discriminate.
Qed.

Lemma onEvent_total st ev :
  carriesToolInput ev = false ->
  exists st' out, onEvent st ev = OK (st', out).
Proof.
  destruct ev as [m | sr n | | i b | i d | i]; simpl; intros H;
    try (eexists; eexists; reflexivity).
  destruct d; try discriminate; simpl; eexists; eexists; reflexivity.
Qed.

Lemma forAwait_yields_no_usage evs : forall st,
  Forall (fun c => chunk_usage c = None /\ chunk_choices c <> [])
         (fst (forAwait st evs)).
Proof.
  induction evs as [| ev rest IH]; intros st; simpl.
  - constructor.
  - destruct (onEvent st ev) as [[st' out] | e] eqn:E; simpl.
    + specialize (IH st'). destruct (forAwait st' rest) as [ys r]; simpl in *.
      apply Forall_app; split; [eapply onEvent_yields_no_usage; eauto | exact IH].
    + constructor.
Qed.

Lemma forAwait_total evs : forall st,
  forallb (fun ev => negb (carriesToolInput ev)) evs = true ->
  exists st', snd (forAwait st evs) = OK st'.
Proof.
  induction evs as [| ev rest IH]; intros st H; simpl in *.
  - eexists; reflexivity.
  - apply andb_prop in H as [Hev Hrest].
    apply negb_true_iff in Hev.
    destruct (onEvent_total st ev Hev) as (st' & out & E). rewrite E.
    destruct (IH st' Hrest) as (st'' & E').
    destruct (forAwait st' rest) as [ys r]; simpl in *. eauto.
Qed.

(** A throw of the loop body is a refused tool-input delta. *)
Lemma forAwait_throws evs : forall st e,
  snd (forAwait st evs) = Throw e ->
  e = Error (str "Unsupported content type: input_json_delta")
  /\ existsb carriesToolInput evs = true.
Proof.
  induction evs as [| ev rest IH]; intros st e H; simpl in *.
  - discriminate.
  - destruct (onEvent st ev) as [[st' out] | e'] eqn:E.
    + specialize (IH st' e).
      destruct (forAwait st' rest) as [ys r]; simpl in *.
      destruct (IH H) as [-> Hex]. rewrite Hex, orb_true_r. auto.
    + simpl in H. injection H as ->.
      destruct ev as [m | sr n | | i b | i d | i]; simpl in E; try discriminate.
      destruct d; simpl in E; try discriminate.
      injection E as <-. auto.
Qed.

Lemma forAwait_completion evs : forall st ys st',
  forAwait st evs = (ys, OK st') ->
  completion_tokens (usage st') =
    match lastStart evs with
    | Some (m, after) => output_tokens (msg_usage m) + sumIncrements after
    | None => completion_tokens (usage st) + sumIncrements evs
    end.
Proof.
  induction evs as [| ev rest IH]; intros st ys st' H; simpl in *.
  - injection H as _ <-. lia.
  - destruct (onEvent st ev) as [[st1 out] | e] eqn:E; [| discriminate].
    destruct (forAwait st1 rest) as [ys' r] eqn:F.
    injection H as _ ->.
    specialize (IH _ _ _ F).
    destruct (lastStart rest) as [[m after] |]; [exact IH |].
    destruct ev as [m | sr n | | i b | i d | i]; simpl in E;
      try (injection E as <- _; simpl in *; lia).
    destruct d; simpl in E; try discriminate; injection E as <- _; simpl; lia.
Qed.

(** When the iteration ends without a throw, the generator has yielded
    the chunks of the loop followed by [finalChunk]. *)
Lemma streamResponseGenerator_returns stream :
  thrown (streamResponseGenerator stream) = None ->
  exists st,
    failure stream = None
    /\ snd (forAwait initialState (events stream)) = OK st
    /\ yielded (streamResponseGenerator stream) =
         fst (forAwait initialState (events stream)) ++ [finalChunk st].
Proof.
  unfold streamResponseGenerator.
  destruct (forAwait initialState (events stream)) as [ys [st | e]];
    simpl; [| discriminate].
  destruct (failure stream); simpl; [discriminate |].
  intros _. exists st. auto.
Qed.

(** A stream that delivers a tool-input delta makes the generator throw
    at that event: the chunks of the earlier deltas have been yielded, the
    final chunk never is. *)
Lemma forAwait_tool_input evs : forall st,
  existsb carriesToolInput evs = true ->
  snd (forAwait st evs)
  = Throw (Error (str "Unsupported content type: input_json_delta")).
Proof.
  induction evs as [| ev rest IH]; intros st H; simpl in *.
  - discriminate.
  - destruct (carriesToolInput ev) eqn:C.
    + destruct ev as [m | sr n | | i b | i d | i]; try discriminate.
      destruct d; try discriminate. reflexivity.
    + destruct (onEvent_total st ev C) as (st' & out & E). rewrite E.
      specialize (IH st' H).
      destruct (forAwait st' rest) as [ys r]; simpl in *. exact IH.
Qed.

Lemma stream_with_tool_input_throws stream :
  existsb carriesToolInput (events stream) = true ->
  thrown (streamResponseGenerator stream)
  = Some (Error (str "Unsupported content type: input_json_delta"))
  /\ Forall (fun c => chunk_usage c = None)
            (yielded (streamResponseGenerator stream)).
Proof.
  intros H. unfold streamResponseGenerator.
  pose proof (forAwait_tool_input (events stream) initialState H) as T.
  pose proof (forAwait_yields_no_usage (events stream) initialState) as Y.
  destruct (forAwait initialState (events stream)) as [ys r]; simpl in *.
  subst r. simpl. split; [reflexivity |].
  eapply Forall_impl; [| exact Y]. intros c [Hc _]; exact Hc.
Qed.

(** A vendor stream whose iteration fails (a cancellation, a lost
    connection) ends the generator with a throw; no chunk it yielded
    carries [usage]. *)
Lemma failed_stream_has_no_usage_chunk stream e :
  failure stream = Some e ->
  thrown (streamResponseGenerator stream) <> None
  /\ Forall (fun c => chunk_usage c = None)
            (yielded (streamResponseGenerator stream)).
Proof.
  intros Hf. unfold streamResponseGenerator.
  pose proof (forAwait_yields_no_usage (events stream) initialState) as Y.
  destruct (forAwait initialState (events stream)) as [ys [st | e']];
    simpl in *; rewrite ?Hf; simpl; (split; [discriminate |]);
    (eapply Forall_impl; [| exact Y]); intros c [Hc _]; exact Hc.
Qed.

(** C1 (as amended): for every streaming call whose vendor stream is
    exhausted without a failure and delivers no tool-input delta, the
    generator returns, and the chunks it yields end with one chunk of empty
    [choices] that carries [usage], no earlier chunk carrying [usage]. *)
Theorem stream_ends_with_one_usage_chunk (stream : VendorStream) :
  failure stream = None ->
  forallb (fun ev => negb (carriesToolInput ev)) (events stream) = true ->
  thrown (streamResponseGenerator stream) = None
  /\ endsWithOneUsageChunk (yielded (streamResponseGenerator stream)).
Proof.
  intros Hend Hsup. unfold streamResponseGenerator.
  destruct (forAwait_total (events stream) initialState Hsup) as (st & Hst).
  pose proof (forAwait_yields_no_usage (events stream) initialState) as Y.
  destruct (forAwait initialState (events stream)) as [ys r]; simpl in *.
  subst r. rewrite Hend. simpl. split; [reflexivity |].
  exists ys, (finalChunk st), (usage st). repeat split. exact Y.
Qed.

Lemma stream_ends_with_one_usage_chunk_witness :
  thrown (streamResponseGenerator textStream) = None
  /\ endsWithOneUsageChunk (yielded (streamResponseGenerator textStream)).
Proof.
  apply (stream_ends_with_one_usage_chunk textStream); reflexivity.
Defined.

(** The scenario of three content deltas: four chunks, the fourth being
    the one with [usage]. *)
Example textStream_four_chunks :
  List.length (yielded (streamResponseGenerator textStream)) = 4%nat
  /\ map (fun c => match chunk_usage c with Some _ => true | None => false end)
         (yielded (streamResponseGenerator textStream))
     = [false; false; false; true].
Proof. split; reflexivity. Qed.

(** C1 as stated fails: the vendor stream below is delivered to its end,
    yet the chunk sequence stops at a content chunk without [usage]. *)
Lemma tool_input_stream_has_no_usage_chunk :
  failure toolStream = None
  /\ List.length (yielded (streamResponseGenerator toolStream)) = 1%nat
  /\ thrown (streamResponseGenerator toolStream)
     = Some (Error (str "Unsupported content type: input_json_delta"))
  /\ ~ endsWithOneUsageChunk (yielded (streamResponseGenerator toolStream)).
Proof.
  repeat split.
  intros (before & final & u & Hy & _ & Hu & _).
  cbv in Hy.
  destruct before as [| b [| b' before]]; simpl in Hy.
  - injection Hy as <-. discriminate.
  - discriminate.
  - discriminate.
Qed.

(** C2 (as amended): when the generator returns, the [completion_tokens]
    of the final chunk is the output-token count of the last stream-start
    snapshot (zero without one) plus the sum of the increments of the
    metadata-delta events after it. *)
Theorem final_completion_tokens_seeded (stream : VendorStream) :
  thrown (streamResponseGenerator stream) = None ->
  exists before final u,
    yielded (streamResponseGenerator stream) = before ++ [final]
    /\ chunk_usage final = Some u
    /\ completion_tokens u = seededCompletion (events stream).
Proof.
  intros H.
  destruct (streamResponseGenerator_returns stream H) as (st & _ & Hst & Hy).
  destruct (forAwait initialState (events stream)) as [ys r] eqn:F.
  simpl in *. subst r.
  exists ys, (finalChunk st), (usage st). repeat split; [exact Hy |].
  rewrite (forAwait_completion _ _ _ _ F). unfold seededCompletion.
  destruct (lastStart (events stream)) as [[m after] |]; simpl; lia.
Qed.

Lemma final_completion_tokens_seeded_witness :
  exists before final u,
    yielded (streamResponseGenerator textStream) = before ++ [final]
    /\ chunk_usage final = Some u
    /\ completion_tokens u = seededCompletion (events textStream).
Proof.
  apply (final_completion_tokens_seeded textStream). reflexivity.
Defined.

(** C2 as stated fails: the stream-start snapshot already reports one
    output token, so the final chunk counts 6 where the increments of the
    metadata-delta events sum to 5. *)
Lemma final_completion_tokens_exceed_increments :
  thrown (streamResponseGenerator textStream) = None
  /\ sumIncrements (events textStream) = 5
  /\ exists before final u,
       yielded (streamResponseGenerator textStream) = before ++ [final]
       /\ chunk_usage final = Some u
       /\ completion_tokens u = 6
       /\ completion_tokens u <> sumIncrements (events textStream).
Proof.
  split; [reflexivity |]. split; [reflexivity |].
  exists (removelast (yielded (streamResponseGenerator textStream))).
  eexists. eexists.
  split; [reflexivity |]. split; [reflexivity |]. split; [reflexivity |].
  discriminate.
Qed.

(* ================================================================== *)
(** * Properties of response normalisation *)
(* ================================================================== *)

Lemma text_blocks_are_segments blocks :
  map block_text (filter is_text blocks) = textSegments blocks.
Proof.
  induction blocks as [| b rest IH]; simpl; [reflexivity |].
  destruct b; simpl; rewrite IH; reflexivity.
Qed.

Lemma parseNonStreamingResponse_accepts response first rest :
  msg_content response = first :: rest ->
  is_tool_use first = false ->
  exists r choice,
    parseNonStreamingResponse response = OK r
    /\ resp_choices r = [choice]
    /\ rm_content (nsc_message choice)
       = List.concat (textSegments (msg_content response)).
Proof.
  intros Hc Hf. unfold parseNonStreamingResponse.
  rewrite Hc, Hf, <- Hc.
  eexists. eexists. split; [reflexivity |]. split; [reflexivity |].
  simpl. rewrite join_empty_concat, text_blocks_are_segments. reflexivity.
Qed.

(** The tool-use rejection is thrown exactly for a reply whose first
    content block is a tool invocation. *)
Lemma parseNonStreamingResponse_rejects response :
  parseNonStreamingResponse response
  = Throw (Error (str "Unsupported content type: tool_use"))
  <-> exists first rest,
        msg_content response = first :: rest /\ is_tool_use first = true.
Proof.
  split.
  - unfold parseNonStreamingResponse.
    destruct (msg_content response) as [| first rest]; [discriminate |].
    destruct (is_tool_use first) eqn:T; [eauto | discriminate].
  - intros (first & rest & Hc & Ht). unfold parseNonStreamingResponse.
    rewrite Hc, Ht. reflexivity.
Qed.

(** What [parseNonStreamingResponse] throws is never an authentication
    error, so the [catch] clause of [generateResponse] rethrows it. *)
Lemma parseNonStreamingResponse_throws response e :
  parseNonStreamingResponse response = Throw e ->
  isAuthenticationError e = false.
Proof.
  unfold parseNonStreamingResponse.
  destruct (msg_content response) as [| first rest].
  - intros H; injection H as <-. reflexivity.
  - destruct (is_tool_use first); [| discriminate].
    intros H; injection H as <-. reflexivity.
Qed.

(** The sample reply has a tool invocation in third position: it is
    accepted and its body is the two text blocks put together. *)
Example sampleReply_body :
  exists r choice,
    parseNonStreamingResponse sampleReply = OK r
    /\ resp_choices r = [choice]
    /\ rm_content (nsc_message choice) = str "Hello"
    /\ rm_reasoning (nsc_message choice) = Some (str "hm").
Proof. eexists. eexists. repeat split. Qed.

(** A reply without any content block is refused by the runtime, with a
    [TypeError], not by the tool-use rejection. *)
Example empty_reply_type_error :
  exists m, parseNonStreamingResponse
              {| msg_id := []; msg_content := []; msg_model := [];
                 msg_role := assistant; msg_stop_reason := None;
                 msg_usage := {| input_tokens := 0; output_tokens := 0 |} |}
            = Throw (TypeError m).
Proof. eexists. reflexivity. Qed.

(* ================================================================== *)
(** * Properties of request translation *)
(* ================================================================== *)

(** [isMessageEmpty] decides emptiness as the specification words it. *)
Lemma isMessageEmpty_spec m : isMessageEmpty m = emptyContent m.
Proof.
  unfold isMessageEmpty, emptyContent.
  destruct (content m) as [s | [| part parts]];
    [apply trim_empty | reflexivity | reflexivity].
Qed.

Section RequestProperties.

Variable parseImageDataUrl : jsstring -> result (jsstring * jsstring).

Abbreviation parseRequestMessage' := (parseRequestMessage parseImageDataUrl).
Abbreviation createParams' := (createParams parseImageDataUrl).
Abbreviation generateResponse' := (generateResponse parseImageDataUrl).
Abbreviation streamResponse' := (streamResponse parseImageDataUrl).
Abbreviation userImagesDecode' := (userImagesDecode parseImageDataUrl).

Lemma parseRequestMessage_ok m p :
  parseRequestMessage' m = OK p ->
  mp_role p = role m
  /\ role m <> system
  /\ isParamEmpty p = emptyContent m.
Proof.
  unfold parseRequestMessage, isParamEmpty, emptyContent.
  destruct m as [r c]; simpl.
  destruct r; simpl; try discriminate.
  - destruct c as [s | parts]; simpl.
    + intros H; injection H as <-. simpl. repeat split; discriminate.
    + destruct (mapM _ parts) as [blocks |] eqn:E; simpl; [| discriminate].
      intros H; injection H as <-. simpl.
      apply mapM_length in E.
      destruct parts, blocks; simpl in E; try discriminate;
        repeat split; discriminate.
  - intros H; injection H as <-.
    destruct c as [s | [| part parts]]; simpl; repeat split; discriminate.
Qed.

Lemma transmitted_filter msgs :
  transmitted msgs
  = filter (fun m => negb (isSystem m) && negb (emptyContent m)) msgs.
Proof.
  unfold transmitted. rewrite filter_filter. apply filter_ext.
  intros m. rewrite isMessageEmpty_spec. reflexivity.
Qed.

Lemma transmitted_withoutEmpty msgs :
  transmitted (filter (fun m => isSystem m || negb (emptyContent m)) msgs)
  = transmitted msgs.
Proof.
  rewrite !transmitted_filter, filter_filter.
  apply filter_ext. intros m.
  destruct (isSystem m), (emptyContent m); reflexivity.
Qed.

Lemma system_withoutEmpty msgs :
  filter isSystem
    (filter (fun m => isSystem m || negb (emptyContent m)) msgs)
  = filter isSystem msgs.
Proof.
  rewrite filter_filter. apply filter_ext. intros m.
  destruct (isSystem m), (emptyContent m); reflexivity.
Qed.

Lemma createParams_fields model request systemMessage stream body :
  createParams' model request systemMessage stream = OK body ->
  mapM parseRequestMessage' (transmitted (messages request))
  = OK (p_messages body)
  /\ p_system body = systemMessage
  /\ p_stream body = stream
  /\ p_max_tokens body =
       match max_tokens request with
       | Some n => n
       | None =>
           match thinking model with
           | Some t => budget_tokens t + DEFAULT_MAX_TOKENS
           | None => DEFAULT_MAX_TOKENS
           end
       end.
Proof.
  unfold createParams.
  destruct (mapM _ _) as [msgs | e]; simpl; [| discriminate].
  intros H; injection H as <-. simpl. auto.
Qed.

(** Every vendor call of [generateResponse] comes after the three
    checks and carries the body built by [createParams]. *)
Lemma generateResponse_calls self model request options c :
  In c (snd (generateResponse' self model request options)) ->
  exists systemMessage body,
    providerType model = str "anthropic"
    /\ truthy (apiKey (client self)) = true
    /\ validateSystemMessages (messages request) = OK systemMessage
    /\ createParams' model request systemMessage false = OK body
    /\ c = (body, requestOptions options).
Proof.
  unfold generateResponse.
  destruct (jseqb _ _) eqn:Hm; simpl; [| contradiction].
  destruct (truthy _) eqn:Hk; simpl; [| contradiction].
  run_call.
  destruct (validateSystemMessages _) as [sm | e] eqn:Hv; [| contradiction].
  destruct (createParams _ _ _ _ _) as [body | e] eqn:Hb; simpl;
    [| contradiction].
  apply jseqb_eq in Hm.
  destruct (create _ _ _) as [r | e]; simpl.
  - destruct (parseNonStreamingResponse r); simpl;
      intros [<- | []]; exists sm, body; auto.
  - intros [<- | []]; exists sm, body; auto.
Qed.

Lemma streamResponse_calls self model request options c :
  In c (snd (streamResponse' self model request options)) ->
  exists systemMessage body,
    providerType model = str "anthropic"
    /\ truthy (apiKey (client self)) = true
    /\ validateSystemMessages (messages request) = OK systemMessage
    /\ createParams' model request systemMessage true = OK body
    /\ c = (body, requestOptions options).
Proof.
  unfold streamResponse.
  destruct (jseqb _ _) eqn:Hm; simpl; [| contradiction].
  destruct (truthy _) eqn:Hk; simpl; [| contradiction].
  run_call.
  destruct (validateSystemMessages _) as [sm | e] eqn:Hv; [| contradiction].
  destruct (createParams _ _ _ _ _) as [body | e] eqn:Hb; simpl;
    [| contradiction].
  apply jseqb_eq in Hm.
  destruct (create_stream _ _ _) as [r | e]; simpl;
    intros [<- | []]; exists sm, body; auto.
Qed.

Lemma validateSystemMessages_single msgs sysm s :
  filter isSystem msgs = [sysm] ->
  content sysm = ContentString s ->
  validateSystemMessages msgs = OK (Some s).
Proof.
  intros Hf Hc. unfold validateSystemMessages.
  change (fun m => Role_eqb (role m) system) with isSystem.
  rewrite Hf, Hc. simpl. rewrite andb_false_r. reflexivity.
Qed.

Lemma validateSystemMessages_withoutEmpty msgs :
  validateSystemMessages
    (filter (fun m => isSystem m || negb (emptyContent m)) msgs)
  = validateSystemMessages msgs.
Proof.
  unfold validateSystemMessages.
  change (fun m => Role_eqb (role m) system) with isSystem.
  rewrite system_withoutEmpty. reflexivity.
Qed.

Lemma createParams_withoutEmpty model request systemMessage stream :
  createParams' model (withoutEmptyMessages request) systemMessage stream
  = createParams' model request systemMessage stream.
Proof.
  unfold createParams. simpl. rewrite transmitted_withoutEmpty. reflexivity.
Qed.

(** Empty non-system messages leave no trace: the call behaves as if
    they had not been in the request. *)
Lemma generateResponse_withoutEmpty self model request options :
  generateResponse' self model (withoutEmptyMessages request) options
  = generateResponse' self model request options.
Proof.
  unfold generateResponse.
  change (messages (withoutEmptyMessages request))
    with (filter (fun m => isSystem m || negb (emptyContent m))
                 (messages request)).
  rewrite validateSystemMessages_withoutEmpty.
  destruct (validateSystemMessages (messages request)); simpl;
    rewrite ?createParams_withoutEmpty; reflexivity.
Qed.

Lemma streamResponse_withoutEmpty self model request options :
  streamResponse' self model (withoutEmptyMessages request) options
  = streamResponse' self model request options.
Proof.
  unfold streamResponse.
  change (messages (withoutEmptyMessages request))
    with (filter (fun m => isSystem m || negb (emptyContent m))
                 (messages request)).
  rewrite validateSystemMessages_withoutEmpty.
  destruct (validateSystemMessages (messages request)); simpl;
    rewrite ?createParams_withoutEmpty; reflexivity.
Qed.

Lemma transmitted_messages_kept msgs params :
  mapM parseRequestMessage' (transmitted msgs) = OK params ->
  Forall (fun p => mp_role p <> system /\ isParamEmpty p = false) params.
Proof.
  intros H. apply mapM_Forall2 in H.
  assert (Hin : Forall (fun m => emptyContent m = false) (transmitted msgs)).
  { apply Forall_forall. intros m Hm. rewrite transmitted_filter in Hm.
    apply filter_In in Hm as [_ Hm]. apply andb_prop in Hm as [_ Hm].
    apply negb_true_iff in Hm. exact Hm. }
  induction H as [| m p ms ps Hp _ IH]; constructor.
  - apply parseRequestMessage_ok in Hp as (Hr & Hs & He).
    inversion Hin; subst. split; congruence.
  - apply IH. inversion Hin; assumption.
Qed.

(** C3: for a request with exactly one system-role message, of string
    content, every vendor call of [generateResponse] or [streamResponse]
    carries that content as [system]; its message list is the translation,
    in order, of the messages that are neither system-role nor empty, so
    it holds no system-role and no empty message; and the empty messages
    cause no error: the call behaves as on the request without them. *)
Theorem single_system_message_extracted
    self model request options sysm s body ro :
  filter isSystem (messages request) = [sysm] ->
  content sysm = ContentString s ->
  In (body, ro) (snd (generateResponse' self model request options))
  \/ In (body, ro) (snd (streamResponse' self model request options)) ->
  p_system body = Some s
  /\ mapM parseRequestMessage'
       (filter (fun m => negb (isSystem m) && negb (emptyContent m))
               (messages request))
     = OK (p_messages body)
  /\ Forall (fun p => mp_role p <> system /\ isParamEmpty p = false)
            (p_messages body)
  /\ generateResponse' self model (withoutEmptyMessages request) options
     = generateResponse' self model request options
  /\ streamResponse' self model (withoutEmptyMessages request) options
     = streamResponse' self model request options.
Proof.
  intros Hf Hc Hcall.
  assert (exists stream,
            createParams' model request (Some s) stream = OK body)
    as (stream & Hb).
  { destruct Hcall as [H | H];
      [apply generateResponse_calls in H | apply streamResponse_calls in H];
      destruct H as (sm & b & _ & _ & Hv & Hb & E);
      rewrite (validateSystemMessages_single _ _ _ Hf Hc) in Hv;
      injection Hv as <-; injection E as -> _; eauto. }
  apply createParams_fields in Hb as (Hm & Hs & _ & _).
  repeat split.
  - exact Hs.
  - rewrite <- transmitted_filter. exact Hm.
  - eapply transmitted_messages_kept; eauto.
  - apply generateResponse_withoutEmpty.
  - apply streamResponse_withoutEmpty.
Qed.

(** C5: for a call that passes the provider, credential and
    system-message checks and whose messages translate, [generateResponse]
    and [streamResponse] each make one vendor call, and the [max_tokens]
    they transmit is the default floor [DEFAULT_MAX_TOKENS], which is 8192,
    when the request gives none and the model has no thinking
    configuration; the thinking budget plus that floor when the request
    gives none and the model has one; and the request's value, unchanged,
    when it gives one. *)
Theorem max_tokens_default_or_unchanged
    self model request options systemMessage params :
  isAnthropicModel model ->
  truthy (apiKey (client self)) = true ->
  validateSystemMessages (messages request) = OK systemMessage ->
  mapM parseRequestMessage' (transmitted (messages request)) = OK params ->
  exists body streamBody,
    snd (generateResponse' self model request options)
    = [(body, requestOptions options)]
    /\ snd (streamResponse' self model request options)
       = [(streamBody, requestOptions options)]
    /\ p_max_tokens streamBody = p_max_tokens body
    /\ DEFAULT_MAX_TOKENS = 8192
    /\ (max_tokens request = None -> thinking model = None ->
        p_max_tokens body = DEFAULT_MAX_TOKENS)
    /\ (forall t, max_tokens request = None -> thinking model = Some t ->
        p_max_tokens body = budget_tokens t + DEFAULT_MAX_TOKENS)
    /\ (forall n, max_tokens request = Some n -> p_max_tokens body = n).
Proof.
  intros Hm Hk Hv Ht.
  unfold generateResponse, streamResponse.
  rewrite Hm, jseqb_refl, Hk, Hv. simpl. run_call. unfold createParams.
  rewrite Ht. simpl.
  eexists. eexists. split.
  { destruct (create _ _ _) as [r | e]; simpl;
      [destruct (parseNonStreamingResponse r) |]; reflexivity. }
  split.
  { destruct (create_stream _ _ _) as [r | e]; reflexivity. }
  cbn [p_max_tokens]. split; [reflexivity |]. split; [reflexivity |].
  repeat split.
  - intros -> ->. reflexivity.
  - intros t -> ->. reflexivity.
  - intros n ->. reflexivity.
Qed.

Lemma validateSystemMessages_rejects msgs :
  (1 < List.length (filter isSystem msgs))%nat
  \/ (exists m parts,
        In m msgs /\ role m = system /\ content m = ContentParts parts) ->
  exists e,
    UnsupportedRequestShape e /\ validateSystemMessages msgs = Throw e.
Proof.
  intros H. unfold validateSystemMessages.
  change (fun m => Role_eqb (role m) system) with isSystem.
  destruct (1 <? List.length (filter isSystem msgs))%nat eqn:L.
  - eexists. split; [left; reflexivity | reflexivity].
  - apply Nat.ltb_ge in L.
    destruct H as [H | (m & parts & Hin & Hr & Hc)]; [lia |].
    assert (Hf : In m (filter isSystem msgs)).
    { apply filter_In. split; [exact Hin |].
      unfold isSystem. rewrite Hr. reflexivity. }
    destruct (filter isSystem msgs) as [| m0 [| m1 rest]]; simpl in *.
    + contradiction.
    + destruct Hf as [-> | []]. rewrite Hc. simpl.
      eexists. split; [right; reflexivity | reflexivity].
    + lia.
Qed.

(** Every throw of the system-message check is one of the two
    rejections. *)
Lemma validateSystemMessages_throws msgs e :
  validateSystemMessages msgs = Throw e -> UnsupportedRequestShape e.
Proof.
  unfold validateSystemMessages.
  destruct (1 <? _)%nat.
  - intros H; injection H as <-. left. reflexivity.
  - destruct (_ && _).
    + intros H; injection H as <-. right. reflexivity.
    + discriminate.
Qed.

(** C4 (as amended): for a call with an anthropic model and a credential
    present, a request with more than one system-role message, or with a
    system-role message of non-string content, makes [generateResponse]
    and [streamResponse] fail with one of the two rejections of the
    system-message check, and no vendor call is made. *)
Theorem system_messages_rejected self model request options :
  isAnthropicModel model ->
  truthy (apiKey (client self)) = true ->
  (1 < List.length (filter isSystem (messages request)))%nat
  \/ (exists m parts,
        In m (messages request)
        /\ role m = system /\ content m = ContentParts parts) ->
  exists e,
    UnsupportedRequestShape e
    /\ generateResponse' self model request options = (Throw e, [])
    /\ streamResponse' self model request options = (Throw e, []).
Proof.
  intros Hm Hk Hs.
  destruct (validateSystemMessages_rejects _ Hs) as (e & He & Hv).
  exists e. split; [exact He |].
  unfold generateResponse, streamResponse.
  rewrite Hm, jseqb_refl, Hk, Hv. split; reflexivity.
Qed.

(** The client of a constructed adapter has no credential exactly when
    the provider record holds the empty string, or holds no key while the
    environment has none either. *)
Lemma constructed_key_absent_iff environmentKey endpoint prov :
  truthy (apiKey (client (new_AnthropicProvider environmentKey endpoint prov)))
  = false
  <-> provider_apiKey prov = Some []
      \/ (provider_apiKey prov = None /\ truthy environmentKey = false).
Proof.
  simpl. destruct (provider_apiKey prov) as [[| c key] |]; simpl.
  - split; auto.
  - split; [discriminate |]. intros [H | [H _]]; discriminate.
  - split; [auto |]. intros [H | [_ H]]; [discriminate | exact H].
Qed.

(** C9 (as amended): whatever adapter was constructed, every call made
    with an anthropic model while the client has no credential (its
    [apiKey] is [undefined], [null] or the empty string) fails with
    [LLMAPIKeyNotSetException], naming the provider, and makes no vendor
    call. *)
Theorem missing_key_fails_at_call self model request options :
  truthy (apiKey (client self)) = false ->
  isAnthropicModel model ->
  generateResponse' self model request options
  = (Throw (LLMAPIKeyNotSetException
              (str "Provider " ++ provider_id (provider self)
               ++ str " API key is missing. Please set it in settings menu.")),
     [])
  /\ streamResponse' self model request options
     = (Throw (LLMAPIKeyNotSetException
                 (str "Provider " ++ provider_id (provider self)
                  ++ str " API key is missing. Please set it in settings menu.")),
        []).
Proof.
  intros Hk Hm.
  unfold generateResponse, streamResponse.
  rewrite Hm, jseqb_refl, Hk. split; reflexivity.
Qed.

(** A vendor call that fails ends the entry point with what the [catch]
    clause throws for that failure. *)
Lemma generateResponse_vendor_failure self model request options body ro e :
  In (body, ro) (snd (generateResponse' self model request options)) ->
  create (transport (client self)) body ro = Throw e ->
  generateResponse' self model request options
  = (Throw (onCreateError self e), [(body, ro)]).
Proof.
  intros Hcall Hfail.
  apply generateResponse_calls in Hcall
    as (sm & b & Hm & Hk & Hv & Hb & E).
  injection E as -> ->.
  unfold generateResponse.
  rewrite Hm, jseqb_refl, Hk, Hv. simpl.
  run_call.
  rewrite Hb, Hfail. reflexivity.
Qed.

Lemma streamResponse_vendor_failure self model request options body ro e :
  In (body, ro) (snd (streamResponse' self model request options)) ->
  create_stream (transport (client self)) body ro = Throw e ->
  streamResponse' self model request options
  = (Throw (onCreateError self e), [(body, ro)]).
Proof.
  intros Hcall Hfail.
  apply streamResponse_calls in Hcall
    as (sm & b & Hm & Hk & Hv & Hb & E).
  injection E as -> ->.
  unfold streamResponse.
  rewrite Hm, jseqb_refl, Hk, Hv. simpl.
  run_call.
  rewrite Hb, Hfail. reflexivity.
Qed.

Lemma onCreateError_classified self e :
  classifiedAs self e (onCreateError self e).
Proof.
  unfold classifiedAs, onCreateError. repeat split.
  - intros msg -> Hi.
    cbn [isAuthenticationError exn_message]. rewrite Hi. reflexivity.
  - intros msg -> Hi.
    cbn [isAuthenticationError exn_message]. rewrite Hi. reflexivity.
  - intros ->. reflexivity.
Qed.

(** C7: when the vendor call of [generateResponse] or of
    [streamResponse] fails with an authentication error, the entry point
    throws [LLMAPIKeyInvalidException] around it: with the guidance to
    create an organization when the vendor's message contains the CORS
    restriction text, with the generic invalid-key message otherwise (the
    two messages differ).  When the vendor call fails with any other
    value, that value is thrown unchanged. *)
Theorem vendor_failure_classified self model request options body ro e :
  (In (body, ro) (snd (generateResponse' self model request options)) ->
   create (transport (client self)) body ro = Throw e ->
   exists thrownValue,
     generateResponse' self model request options
     = (Throw thrownValue, [(body, ro)])
     /\ classifiedAs self e thrownValue)
  /\ (In (body, ro) (snd (streamResponse' self model request options)) ->
      create_stream (transport (client self)) body ro = Throw e ->
      exists thrownValue,
        streamResponse' self model request options
        = (Throw thrownValue, [(body, ro)])
        /\ classifiedAs self e thrownValue)
  /\ includes (corsMessage self) (str "Create a new organization") = true
  /\ corsMessage self <> invalidKeyMessage self.
Proof.
  repeat split.
  - intros Hc Hf. exists (onCreateError self e). split.
    + apply generateResponse_vendor_failure; assumption.
    + apply onCreateError_classified.
  - intros Hc Hf. exists (onCreateError self e). split.
    + apply streamResponse_vendor_failure; assumption.
    + apply onCreateError_classified.
  - apply corsMessage_guidance.
  - apply corsMessage_distinct.
Qed.

Lemma validateImageType_throws mimeType e :
  validateImageType mimeType = Throw e ->
  ~ In mimeType SUPPORTED_IMAGE_TYPES
  /\ e = Error (unsupportedImageMessage mimeType).
Proof.
  unfold validateImageType.
  destruct (array_includes SUPPORTED_IMAGE_TYPES mimeType) eqn:I; cbn [negb];
    [discriminate |].
  intros H; injection H as <-. split.
  - intros Hin. apply array_includes_In in Hin. congruence.
  - reflexivity.
Qed.

Lemma validateImageType_unsupported mimeType :
  ~ In mimeType SUPPORTED_IMAGE_TYPES ->
  validateImageType mimeType = Throw (Error (unsupportedImageMessage mimeType)).
Proof.
  intros Hn. unfold validateImageType.
  destruct (array_includes SUPPORTED_IMAGE_TYPES mimeType) eqn:I; cbn [negb].
  - apply array_includes_In in I. contradiction.
  - reflexivity.
Qed.

Lemma parseContentPart_throws part e :
  (forall url, part = ImageContentPart url ->
               exists r, parseImageDataUrl url = OK r) ->
  parseContentPart parseImageDataUrl part = Throw e ->
  UnsupportedImageType e.
Proof.
  intros Hd. destruct part as [t | url]; simpl; [discriminate |].
  destruct (Hd url eq_refl) as ([mimeType base64Data] & ->). simpl.
  destruct (validateImageType mimeType) as [[] | e'] eqn:V; simpl;
    [discriminate |].
  intros H; injection H as <-.
  apply validateImageType_throws in V as [Hn ->].
  exists mimeType. auto.
Qed.

Lemma parseRequestMessage_throws msgs m e :
  userImagesDecode' msgs ->
  In m msgs -> role m <> system ->
  parseRequestMessage' m = Throw e ->
  UnsupportedImageType e.
Proof.
  intros Hd Hin Hr. unfold parseRequestMessage.
  destruct m as [r c]; simpl in *.
  destruct r; simpl; [| destruct c; discriminate | congruence].
  destruct c as [s | parts]; simpl; [discriminate |].
  destruct (mapM _ parts) as [blocks | e'] eqn:E; simpl; [discriminate |].
  intros H; injection H as <-.
  apply mapM_throw_inv in E as (part & Hp & Ht).
  eapply parseContentPart_throws; [| exact Ht].
  intros url ->.
  apply (Hd {| role := user; content := ContentParts parts |} parts url);
    auto.
Qed.

Lemma parseRequestMessage_unsupported_image m parts url mimeType base64Data :
  role m = user -> content m = ContentParts parts ->
  In (ImageContentPart url) parts ->
  parseImageDataUrl url = OK (mimeType, base64Data) ->
  ~ In mimeType SUPPORTED_IMAGE_TYPES ->
  exists e, parseRequestMessage' m = Throw e.
Proof.
  intros Hr Hc Hin Hd Hn. unfold parseRequestMessage.
  rewrite Hr, Hc. simpl.
  destruct (mapM_first_throw (parseContentPart parseImageDataUrl)
              (fun _ => True) parts) as (e & -> & _).
  - auto.
  - exists (ImageContentPart url). eexists. split; [exact Hin |].
    simpl. rewrite Hd. simpl.
    rewrite (validateImageType_unsupported _ Hn). reflexivity.
  - simpl. eauto.
Qed.

Lemma transmitted_app before after :
  transmitted (before ++ after) = transmitted before ++ transmitted after.
Proof. unfold transmitted. rewrite !filter_app. reflexivity. Qed.

Lemma transmitted_In m msgs : In m (transmitted msgs) -> In m msgs.
Proof.
  unfold transmitted. intros H.
  apply filter_In in H as [H _]. apply filter_In in H as [H _]. exact H.
Qed.

Lemma transmitted_not_system m msgs :
  In m (transmitted msgs) -> role m <> system.
Proof.
  unfold transmitted. intros H.
  apply filter_In in H as [H _]. apply filter_In in H as [_ H].
  intros E. rewrite E in H. discriminate.
Qed.

(** C6 (as amended): a request with, in a user-role message, an image
    part whose decoded mime type is outside the allow-list never reaches
    the vendor: both entry points fail and make no vendor call.  When the
    provider, credential and system-message checks pass and the image
    references of the user-role messages and parts before that part
    decode, the failure is the image-type rejection, whose message lists
    the allowed types. *)
Theorem unsupported_image_rejected
    self model request options
    before m after partsBefore url partsAfter mimeType base64Data :
  messages request = before ++ m :: after ->
  role m = user ->
  content m = ContentParts (partsBefore ++ ImageContentPart url :: partsAfter) ->
  parseImageDataUrl url = OK (mimeType, base64Data) ->
  ~ In mimeType SUPPORTED_IMAGE_TYPES ->
  (exists e, generateResponse' self model request options = (Throw e, []))
  /\ (exists e, streamResponse' self model request options = (Throw e, []))
  /\ (isAnthropicModel model ->
      truthy (apiKey (client self)) = true ->
      (exists systemMessage,
          validateSystemMessages (messages request) = OK systemMessage) ->
      userImagesDecode' before ->
      (forall url', In (ImageContentPart url') partsBefore ->
                    exists r, parseImageDataUrl url' = OK r) ->
      exists e,
        UnsupportedImageType e
        /\ generateResponse' self model request options = (Throw e, [])
        /\ streamResponse' self model request options = (Throw e, [])).
Proof.
  intros Hmsgs Hr Hc Hu Hn.
  assert (Hkept : transmitted (messages request)
                  = transmitted before ++ m :: transmitted after).
  { rewrite Hmsgs, transmitted_app. f_equal.
    unfold transmitted. simpl. rewrite Hr. simpl.
    unfold isMessageEmpty. rewrite Hc.
    destruct partsBefore; reflexivity. }
  assert (Himg : parseContentPart parseImageDataUrl (ImageContentPart url)
                 = Throw (Error (unsupportedImageMessage mimeType))).
  { simpl. rewrite Hu. simpl.
    rewrite (validateImageType_unsupported _ Hn). reflexivity. }
  assert (Hany : exists e,
             mapM parseRequestMessage' (transmitted (messages request))
             = Throw e).
  { destruct (mapM_throw_after_prefix (parseContentPart parseImageDataUrl)
                (fun _ => True) partsBefore (ImageContentPart url) partsAfter
                _ (fun _ _ _ _ => I) Himg I) as (e1 & E1 & _).
    destruct (mapM_first_throw parseRequestMessage' (fun _ => True)
                (transmitted (messages request))) as (e & He & _).
    - auto.
    - exists m. exists e1. split.
      + rewrite Hkept. apply in_or_app. right. left. reflexivity.
      + unfold parseRequestMessage. rewrite Hr, Hc. simpl.
        rewrite E1. reflexivity.
    - eauto. }
  destruct Hany as (e0 & He0).
  split; [| split].
  - unfold generateResponse.
    destruct (jseqb _ _); simpl; [| eexists; reflexivity].
    destruct (truthy _); simpl; [| eexists; reflexivity].
    run_call.
    destruct (validateSystemMessages _) as [sm | e];
      [| eexists; reflexivity].
    unfold createParams. rewrite He0. simpl. eexists. reflexivity.
  - unfold streamResponse.
    destruct (jseqb _ _); simpl; [| eexists; reflexivity].
    destruct (truthy _); simpl; [| eexists; reflexivity].
    run_call.
    destruct (validateSystemMessages _) as [sm | e];
      [| eexists; reflexivity].
    unfold createParams. rewrite He0. simpl. eexists. reflexivity.
  - intros Hm Hk (sm & Hv) Hd Hpd.
    destruct (mapM_throw_after_prefix (parseContentPart parseImageDataUrl)
                UnsupportedImageType partsBefore (ImageContentPart url)
                partsAfter (Error (unsupportedImageMessage mimeType)))
      as (e1 & E1 & P1).
    { intros part e Hin Ht. apply (parseContentPart_throws part e); [| exact Ht].
      intros url' ->. apply Hpd. exact Hin. }
    { exact Himg. }
    { exists mimeType. auto. }
    destruct (mapM_throw_after_prefix parseRequestMessage'
                UnsupportedImageType (transmitted before) m
                (transmitted after) e1) as (e & He & Pe).
    { intros x e Hx Ht.
      apply (parseRequestMessage_throws before x e Hd);
        [exact (transmitted_In _ _ Hx)
        | exact (transmitted_not_system _ _ Hx) | exact Ht]. }
    { unfold parseRequestMessage. rewrite Hr, Hc. simpl.
      rewrite E1. reflexivity. }
    { exact P1. }
    exists e. split; [exact Pe |].
    destruct Pe as (mt & _ & ->).
    unfold generateResponse, streamResponse.
    rewrite Hm, jseqb_refl, Hk, Hv. simpl. run_call. unfold createParams.
    rewrite Hkept, He. split; reflexivity.
Qed.

(** An assistant-role message with multi-part content goes through
    [parseRequestMessage] unchecked: nothing is rejected, nothing
    converted, and the caller's array is what is transmitted, image parts
    included. *)
Lemma assistant_parts_handed_on m parts :
  role m = assistant ->
  content m = ContentParts parts ->
  parseRequestMessage' m
  = OK {| mp_role := assistant;
          mp_content := ParamBlocks (map asBlock parts) |}.
Proof.
  intros Hr Hc. unfold parseRequestMessage. rewrite Hr, Hc. reflexivity.
Qed.

(** A vendor call that is answered ends [generateResponse] with the
    normalised reply, or with what normalising it throws. *)
Lemma generateResponse_reply self model request options body ro response :
  In (body, ro) (snd (generateResponse' self model request options)) ->
  create (transport (client self)) body ro = OK response ->
  fst (generateResponse' self model request options)
  = parseNonStreamingResponse response.
Proof.
  intros Hcall Hreply.
  apply generateResponse_calls in Hcall
    as (sm & b & Hm & Hk & Hv & Hb & E).
  injection E as -> ->.
  unfold generateResponse.
  rewrite Hm, jseqb_refl, Hk, Hv. simpl. run_call.
  rewrite Hb, Hreply.
  destruct (parseNonStreamingResponse response) as [r | e] eqn:P; simpl;
    [reflexivity |].
  unfold onCreateError.
  rewrite (parseNonStreamingResponse_throws _ _ P). reflexivity.
Qed.

(** C10: for every reply of the vendor to the call of
    [generateResponse], the call fails with the tool-use rejection exactly
    when the first content block of the reply is a tool invocation.  When
    the first block is of another type no error is raised wherever tool
    invocations occur after it, and the message body of the response is
    the concatenation, in order, of the text blocks: the later tool
    invocations are left out. *)
Theorem tool_use_rejected_in_first_position_only
    self model request options body ro response :
  In (body, ro) (snd (generateResponse' self model request options)) ->
  create (transport (client self)) body ro = OK response ->
  (fst (generateResponse' self model request options)
   = Throw (Error (str "Unsupported content type: tool_use"))
   <-> exists first rest,
         msg_content response = first :: rest /\ is_tool_use first = true)
  /\ (forall first rest,
        msg_content response = first :: rest ->
        is_tool_use first = false ->
        exists r choice,
          fst (generateResponse' self model request options) = OK r
          /\ resp_choices r = [choice]
          /\ rm_content (nsc_message choice)
             = List.concat (textSegments (msg_content response))).
Proof.
  intros Hcall Hreply.
  rewrite (generateResponse_reply _ _ _ _ _ _ _ Hcall Hreply).
  split.
  - apply parseNonStreamingResponse_rejects.
  - apply parseNonStreamingResponse_accepts.
Qed.

End RequestProperties.


(* ================================================================== *)
(** * The properties on the sample inputs *)
(* ================================================================== *)

Lemma single_system_message_extracted_witness :
  snd (generateResponse decode (keyedAdapter answeringEndpoint)
         anthropicModel terseRequest None)
  = [(terseBody None 8192 false, noSignal)]
  /\ p_system (terseBody None 8192 false) = Some (str "Be terse")
  /\ Forall (fun p => mp_role p <> system /\ isParamEmpty p = false)
            (p_messages (terseBody None 8192 false)).
Proof.
  split; [reflexivity |].
  pose proof (single_system_message_extracted decode
                (keyedAdapter answeringEndpoint) anthropicModel terseRequest
                None (systemText "Be terse") (str "Be terse")
                (terseBody None 8192 false) noSignal
                eq_refl eq_refl (or_introl (or_introl eq_refl))) as H.
  destruct H as (Hs & _ & Hk & _). split; [exact Hs | exact Hk].
Defined.

Lemma max_tokens_default_or_unchanged_witness :
  (exists body,
      snd (generateResponse decode (keyedAdapter answeringEndpoint)
             anthropicModel terseRequest None) = [(body, noSignal)]
      /\ p_max_tokens body = 8192)
  /\ (exists body,
         snd (generateResponse decode (keyedAdapter answeringEndpoint)
                thinkingModel terseRequest None) = [(body, noSignal)]
         /\ p_max_tokens body = 1024 + 8192)
  /\ (exists body,
         snd (generateResponse decode (keyedAdapter answeringEndpoint)
                thinkingModel cappedRequest None) = [(body, noSignal)]
         /\ p_max_tokens body = 4096).
Proof.
  split; [| split].
  - destruct (max_tokens_default_or_unchanged decode
                (keyedAdapter answeringEndpoint) anthropicModel terseRequest
                None _ _ eq_refl eq_refl eq_refl eq_refl)
      as (body & streamBody & Hlog & _ & _ & Hd & H & _).
    exists body. split; [exact Hlog |].
    rewrite (H eq_refl eq_refl). exact Hd.
  - destruct (max_tokens_default_or_unchanged decode
                (keyedAdapter answeringEndpoint) thinkingModel terseRequest
                None _ _ eq_refl eq_refl eq_refl eq_refl)
      as (body & streamBody & Hlog & _ & _ & Hd & _ & H & _).
    exists body. split; [exact Hlog |].
    rewrite (H {| budget_tokens := 1024 |} eq_refl eq_refl), Hd. reflexivity.
  - destruct (max_tokens_default_or_unchanged decode
                (keyedAdapter answeringEndpoint) thinkingModel cappedRequest
                None _ _ eq_refl eq_refl eq_refl eq_refl)
      as (body & streamBody & Hlog & _ & _ & _ & _ & _ & H).
    exists body. split; [exact Hlog |]. exact (H 4096 eq_refl).
Defined.

Lemma system_messages_rejected_witness :
  exists e,
    UnsupportedRequestShape e
    /\ generateResponse decode (keyedAdapter answeringEndpoint)
         anthropicModel twoSystemsRequest None = (Throw e, [])
    /\ streamResponse decode (keyedAdapter answeringEndpoint)
         anthropicModel twoSystemsRequest None = (Throw e, []).
Proof.
  apply (system_messages_rejected decode (keyedAdapter answeringEndpoint)
           anthropicModel twoSystemsRequest None).
  - reflexivity.
  - reflexivity.
  - left. simpl. lia.
Defined.

(** C4 as stated fails: without a credential the request with two
    system messages is refused for the missing key, and the system-message
    check is never reached. *)
Lemma two_system_messages_without_key :
  (1 < List.length (filter isSystem (messages twoSystemsRequest)))%nat
  /\ generateResponse decode (keylessAdapter answeringEndpoint)
       anthropicModel twoSystemsRequest None
     = (Throw (LLMAPIKeyNotSetException
                 (str "Provider anthropic API key is missing. Please set it in settings menu.")),
        [])
  /\ ~ UnsupportedRequestShape
         (LLMAPIKeyNotSetException
            (str "Provider anthropic API key is missing. Please set it in settings menu.")).
Proof.
  split; [simpl; lia |]. split; [reflexivity |].
  intros [H | H]; discriminate.
Qed.

Lemma missing_key_fails_at_call_witness :
  truthy (apiKey (client (keylessAdapter answeringEndpoint))) = false
  /\ generateResponse decode (keylessAdapter answeringEndpoint)
       anthropicModel terseRequest None
     = (Throw (LLMAPIKeyNotSetException
                 (str "Provider anthropic API key is missing. Please set it in settings menu.")),
        [])
  /\ streamResponse decode
       (new_AnthropicProvider (Some (str "sk-ant-env")) answeringEndpoint
          (providerWithKey (Some [])))
       anthropicModel terseRequest None
     = (Throw (LLMAPIKeyNotSetException
                 (str "Provider anthropic API key is missing. Please set it in settings menu.")),
        []).
Proof.
  split; [reflexivity |]. split.
  - exact (proj1 (missing_key_fails_at_call decode
                    (keylessAdapter answeringEndpoint) anthropicModel
                    terseRequest None eq_refl eq_refl)).
  - exact (proj2 (missing_key_fails_at_call decode
                    (new_AnthropicProvider (Some (str "sk-ant-env"))
                       answeringEndpoint (providerWithKey (Some [])))
                    anthropicModel terseRequest None eq_refl eq_refl)).
Defined.

(** A provider record without a key is not yet a client without a
    credential: the key of the environment, when there is one, is the
    client's, and the call goes to the vendor. *)
Example environment_key_is_used :
  apiKey (client (new_AnthropicProvider (Some (str "sk-ant-env"))
                    answeringEndpoint (providerWithKey None)))
  = Some (str "sk-ant-env")
  /\ snd (generateResponse decode
            (new_AnthropicProvider (Some (str "sk-ant-env"))
               answeringEndpoint (providerWithKey None))
            anthropicModel terseRequest None)
     = [(terseBody None 8192 false, noSignal)].
Proof. split; reflexivity. Qed.

(** C9 as stated fails: with a model of another vendor the call made
    without a credential stops at the provider check, before the key is
    looked at. *)
Lemma missing_key_with_foreign_model :
  truthy (apiKey (client (keylessAdapter answeringEndpoint))) = false
  /\ generateResponse decode (keylessAdapter answeringEndpoint)
       openaiModel terseRequest None
     = (Throw (Error (str "Model is not a Anthropic model")), [])
  /\ streamResponse decode (keylessAdapter answeringEndpoint)
       openaiModel terseRequest None
     = (Throw (Error (str "Model is not a Anthropic model")), []).
Proof. repeat split. Qed.

Lemma unsupported_image_rejected_witness :
  decode (str "data:image/bmp;base64,Qk0=") = OK (str "image/bmp", str "Qk0=")
  /\ (exists e, decode (str "cat.png") = Throw e)
  /\ exists e,
       UnsupportedImageType e
       /\ generateResponse decode (keyedAdapter answeringEndpoint)
            anthropicModel bmpThenBrokenRequest None = (Throw e, [])
       /\ streamResponse decode (keyedAdapter answeringEndpoint)
            anthropicModel bmpThenBrokenRequest None = (Throw e, []).
Proof.
  split; [reflexivity |]. split; [eexists; reflexivity |].
  destruct (unsupported_image_rejected decode
              (keyedAdapter answeringEndpoint) anthropicModel
              bmpThenBrokenRequest None
              [userText "Look"] bmpThenBrokenMessage []
              [] (str "data:image/bmp;base64,Qk0=")
              [ImageContentPart (str "cat.png")]
              (str "image/bmp") (str "Qk0=")
              eq_refl eq_refl eq_refl eq_refl) as (_ & _ & H).
  - simpl. intros [H | [H | [H | [H | []]]]]; discriminate.
  - apply H.
    + reflexivity.
    + reflexivity.
    + eexists. reflexivity.
    + intros m parts url [<- | []] _ Hc. discriminate.
    + intros url' [].
Defined.

(** The rejection on the sample request spells out the allowed set. *)
Example bmp_rejection_message :
  fst (generateResponse decode (keyedAdapter answeringEndpoint)
         anthropicModel bmpRequest None)
  = Throw (Error
      (str "Anthropic does not support image type image/bmp. Supported types: image/jpeg, image/png, image/gif, image/webp")).
Proof. reflexivity. Qed.

(** C6 as stated fails: without a credential the request with an image
    of an unsupported type is refused for the missing key; the image is
    never looked at and the error is not the image-type rejection. *)
Lemma unsupported_image_without_key :
  decode (str "data:image/bmp;base64,Qk0=") = OK (str "image/bmp", str "Qk0=")
  /\ ~ In (str "image/bmp") SUPPORTED_IMAGE_TYPES
  /\ generateResponse decode (keylessAdapter answeringEndpoint)
       anthropicModel bmpRequest None
     = (Throw (LLMAPIKeyNotSetException
                 (str "Provider anthropic API key is missing. Please set it in settings menu.")),
        [])
  /\ ~ UnsupportedImageType
         (LLMAPIKeyNotSetException
            (str "Provider anthropic API key is missing. Please set it in settings menu.")).
Proof.
  split; [reflexivity |].
  split; [simpl; intros [H | [H | [H | [H | []]]]]; discriminate |].
  split; [reflexivity |].
  intros (mimeType & _ & H). discriminate.
Qed.

(** An image part of an unsupported type that sits in an assistant-role
    message is not looked at either: the call reaches the vendor with the
    caller's array, the [image_url] part inside. *)
Lemma assistant_image_reaches_vendor :
  In assistantParts (messages assistantBmpRequest)
  /\ In bmpPart (elements (content assistantParts))
  /\ decode (str "data:image/bmp;base64,Qk0=")
     = OK (str "image/bmp", str "Qk0=")
  /\ ~ In (str "image/bmp") SUPPORTED_IMAGE_TYPES
  /\ exists r body,
       generateResponse decode (keyedAdapter answeringEndpoint)
         anthropicModel assistantBmpRequest None
       = (OK r, [(body, noSignal)])
       /\ In {| mp_role := assistant;
                mp_content :=
                  ParamBlocks
                    [ TextBlockParam (str "Here it is");
                      ImageUrlPart (str "data:image/bmp;base64,Qk0=") ] |}
             (p_messages body).
Proof.
  split; [right; left; reflexivity |].
  split; [right; left; reflexivity |].
  split; [reflexivity |].
  split; [simpl; intros [H | [H | [H | [H | []]]]]; discriminate |].
  eexists. eexists. split; [reflexivity |].
  right. left. reflexivity.
Qed.

Lemma vendor_failure_classified_witness :
  generateResponse decode (keyedAdapter (failingEndpoint corsError))
    anthropicModel terseRequest None
  = (Throw (LLMAPIKeyInvalidException
              (corsMessage (keyedAdapter (failingEndpoint corsError)))
              corsError),
     [(terseBody None 8192 false, noSignal)])
  /\ streamResponse decode (keyedAdapter (failingEndpoint badKeyError))
       anthropicModel terseRequest None
     = (Throw (LLMAPIKeyInvalidException
                 (str "Provider anthropic API key is invalid. Please update it in settings menu.")
                 badKeyError),
        [(terseBody None 8192 true, noSignal)])
  /\ generateResponse decode (keyedAdapter (failingEndpoint overloadedError))
       anthropicModel terseRequest None
     = (Throw overloadedError, [(terseBody None 8192 false, noSignal)]).
Proof.
  split; [| split].
  - destruct (vendor_failure_classified decode
                (keyedAdapter (failingEndpoint corsError)) anthropicModel
                terseRequest None (terseBody None 8192 false) noSignal
                corsError) as (H & _).
    destruct (H (or_introl eq_refl) eq_refl) as (tv & -> & Hc & _).
    rewrite (Hc _ eq_refl eq_refl). reflexivity.
  - destruct (vendor_failure_classified decode
                (keyedAdapter (failingEndpoint badKeyError)) anthropicModel
                terseRequest None (terseBody None 8192 true) noSignal
                badKeyError) as (_ & H & _).
    destruct (H (or_introl eq_refl) eq_refl) as (tv & -> & _ & Hc & _).
    rewrite (Hc _ eq_refl eq_refl). reflexivity.
  - destruct (vendor_failure_classified decode
                (keyedAdapter (failingEndpoint overloadedError)) anthropicModel
                terseRequest None (terseBody None 8192 false) noSignal
                overloadedError) as (H & _).
    destruct (H (or_introl eq_refl) eq_refl) as (tv & -> & _ & _ & Hc).
    rewrite (Hc eq_refl). reflexivity.
Defined.

(** C8: the claim does not hold of the code.  The assistant-role
    message below has multi-part content; [parseRequestMessage] neither
    rejects it nor converts its content: the array is handed on as it is,
    the image part of an unsupported type included. *)
Lemma assistant_parts_passed_through :
  role assistantParts <> user
  /\ content assistantParts
     = ContentParts [TextContent (str "Here it is"); bmpPart]
  /\ parseRequestMessage decode assistantParts
     = OK {| mp_role := assistant;
             mp_content :=
               ParamBlocks
                 (map asBlock [TextContent (str "Here it is"); bmpPart]) |}
  /\ map asBlock [TextContent (str "Here it is"); bmpPart]
     = [ TextBlockParam (str "Here it is");
         ImageUrlPart (str "data:image/bmp;base64,Qk0=") ].
Proof. split; [discriminate |]. repeat split. Qed.

Lemma tool_use_rejected_in_first_position_only_witness :
  In (ToolUseBlock (str "toolu_01") (str "search") (str "{}"))
     (msg_content sampleReply)
  /\ exists r choice,
       fst (generateResponse decode (keyedAdapter answeringEndpoint)
              anthropicModel terseRequest None) = OK r
       /\ resp_choices r = [choice]
       /\ rm_content (nsc_message choice)
          = List.concat (textSegments (msg_content sampleReply)).
Proof.
  split; [right; right; left; reflexivity |].
  destruct (tool_use_rejected_in_first_position_only decode
              (keyedAdapter answeringEndpoint) anthropicModel terseRequest
              None (terseBody None 8192 false) noSignal sampleReply
              (or_introl eq_refl) eq_refl) as (_ & H).
  exact (H _ _ eq_refl eq_refl).
Defined.

(* ================================================================== *)
(** * Further properties of the streaming generator *)
(* ================================================================== *)

Lemma forAwait_usage_adds_up evs : forall st ys st',
  forAwait st evs = (ys, OK st') ->
  total_tokens (usage st)
  = prompt_tokens (usage st) + completion_tokens (usage st) ->
  total_tokens (usage st')
  = prompt_tokens (usage st') + completion_tokens (usage st').
Proof.
  induction evs as [| ev rest IH]; intros st ys st' H Hinv; simpl in H.
  - injection H as _ <-. exact Hinv.
  - destruct (onEvent st ev) as [[st1 out] | e] eqn:E; [| discriminate].
    destruct (forAwait st1 rest) as [ys' r] eqn:F.
    injection H as _ ->.
    apply (IH _ _ _ F).
    destruct ev as [m | sr n | | i b | i d | i]; simpl in E;
      try (injection E as <- _; simpl in *; lia).
    destruct d; simpl in E; try discriminate; injection E as <- _; exact Hinv.
Qed.

Lemma forAwait_prompt evs : forall st ys st',
  forAwait st evs = (ys, OK st') ->
  prompt_tokens (usage st') =
    match lastStart evs with
    | Some (m, _) => input_tokens (msg_usage m)
    | None => prompt_tokens (usage st)
    end.
Proof.
  induction evs as [| ev rest IH]; intros st ys st' H; simpl in *.
  - injection H as _ <-. reflexivity.
  - destruct (onEvent st ev) as [[st1 out] | e] eqn:E; [| discriminate].
    destruct (forAwait st1 rest) as [ys' r] eqn:F.
    injection H as _ ->.
    specialize (IH _ _ _ F).
    destruct (lastStart rest) as [[m after] |]; [exact IH |].
    destruct ev as [m | sr n | | i b | i d | i]; simpl in E;
      try (injection E as <- _; simpl in *; exact IH).
    destruct d; simpl in E; try discriminate; injection E as <- _; exact IH.
Qed.

(** X1: when the generator returns, the usage of the final chunk is
    consistent: [prompt_tokens] is the input-token count of the last
    stream-start snapshot (zero without one), untouched by the
    metadata-delta events, and [total_tokens] is the sum of
    [prompt_tokens] and [completion_tokens]. *)
Theorem final_usage_consistent (stream : VendorStream) :
  thrown (streamResponseGenerator stream) = None ->
  exists before final u,
    yielded (streamResponseGenerator stream) = before ++ [final]
    /\ chunk_usage final = Some u
    /\ prompt_tokens u =
         match lastStart (events stream) with
         | Some (m, _) => input_tokens (msg_usage m)
         | None => 0
         end
    /\ total_tokens u = prompt_tokens u + completion_tokens u.
Proof.
  intros H.
  destruct (streamResponseGenerator_returns stream H) as (st & _ & Hst & Hy).
  destruct (forAwait initialState (events stream)) as [ys r] eqn:F.
  simpl in *. subst r.
  exists ys, (finalChunk st), (usage st).
  split; [exact Hy |]. split; [reflexivity |]. split.
  - rewrite (forAwait_prompt _ _ _ _ F).
    destruct (lastStart (events stream)) as [[m after] |]; reflexivity.
  - apply (forAwait_usage_adds_up _ _ _ _ F). reflexivity.
Qed.

Lemma final_usage_consistent_witness :
  exists before final u,
    yielded (streamResponseGenerator textStream) = before ++ [final]
    /\ chunk_usage final = Some u
    /\ prompt_tokens u = 3
    /\ total_tokens u = prompt_tokens u + completion_tokens u.
Proof.
  exact (final_usage_consistent textStream eq_refl).
Defined.

Lemma forAwait_choices evs : forall st,
  forallb (fun ev => negb (carriesToolInput ev)) evs = true ->
  map chunk_choices (fst (forAwait st evs))
  = map (fun d => [choiceOf d]) (contentDeltas evs).
Proof.
  induction evs as [| ev rest IH]; intros st H; simpl in *; [reflexivity |].
  apply andb_prop in H as [Hev Hrest].
  destruct ev as [m | sr n | | i b | i d | i]; simpl;
    try (specialize (IH st Hrest);
         destruct (forAwait st rest) as [ys r]; exact IH).
  - match goal with
    | |- context [forAwait ?st1 rest] =>
        specialize (IH st1 Hrest); destruct (forAwait st1 rest) as [ys r]
    end. exact IH.
  - match goal with
    | |- context [forAwait ?st1 rest] =>
        specialize (IH st1 Hrest); destruct (forAwait st1 rest) as [ys r]
    end. exact IH.
  - specialize (IH st Hrest).
    destruct d; try discriminate; simpl;
      destruct (forAwait st rest) as [ys r]; simpl in *; rewrite IH;
      reflexivity.
Qed.

(** X2: on a vendor stream that is exhausted and delivers no tool-input
    delta, the chunks before the final one are the content-delta events of
    the stream, one chunk for each and in the same order, each with the
    single choice that carries its delta. *)
Theorem content_deltas_yield_chunks_in_order (stream : VendorStream) :
  failure stream = None ->
  forallb (fun ev => negb (carriesToolInput ev)) (events stream) = true ->
  exists before final,
    yielded (streamResponseGenerator stream) = before ++ [final]
    /\ chunk_choices final = []
    /\ map chunk_choices before
       = map (fun d => [choiceOf d]) (contentDeltas (events stream)).
Proof.
  intros Hend Hsup. unfold streamResponseGenerator.
  destruct (forAwait_total (events stream) initialState Hsup) as (st & Hst).
  pose proof (forAwait_choices (events stream) initialState Hsup) as C.
  destruct (forAwait initialState (events stream)) as [ys r]; simpl in *.
  subst r. rewrite Hend. simpl.
  exists ys, (finalChunk st). auto.
Qed.

Lemma content_deltas_yield_chunks_in_order_witness :
  exists before final,
    yielded (streamResponseGenerator textStream) = before ++ [final]
    /\ chunk_choices final = []
    /\ map chunk_choices before
       = [ [choiceOf (text_delta (str "Hel"))];
           [choiceOf (text_delta (str "lo"))];
           [choiceOf (text_delta (str "!"))] ].
Proof.
  exact (content_deltas_yield_chunks_in_order textStream eq_refl eq_refl).
Defined.

(** X3: when the iteration of the vendor stream fails (a cancellation,
    a lost connection) and no tool-input delta was delivered, the
    generator has yielded one chunk for each content-delta event
    delivered, then throws the failure as it is; no chunk carries
    [usage]. *)
Theorem failed_stream_yields_deltas_then_throws (stream : VendorStream) e :
  failure stream = Some e ->
  forallb (fun ev => negb (carriesToolInput ev)) (events stream) = true ->
  thrown (streamResponseGenerator stream) = Some e
  /\ map chunk_choices (yielded (streamResponseGenerator stream))
     = map (fun d => [choiceOf d]) (contentDeltas (events stream))
  /\ Forall (fun c => chunk_usage c = None)
            (yielded (streamResponseGenerator stream)).
Proof.
  intros Hend Hsup. unfold streamResponseGenerator.
  destruct (forAwait_total (events stream) initialState Hsup) as (st & Hst).
  pose proof (forAwait_choices (events stream) initialState Hsup) as C.
  pose proof (forAwait_yields_no_usage (events stream) initialState) as Y.
  destruct (forAwait initialState (events stream)) as [ys r]; simpl in *.
  subst r. rewrite Hend. simpl.
  split; [reflexivity |]. split; [exact C |].
  eapply Forall_impl; [| exact Y]. intros c [Hc _]; exact Hc.
Qed.

Lemma failed_stream_yields_deltas_then_throws_witness :
  thrown (streamResponseGenerator cancelledStream) = Some abortError
  /\ map chunk_choices (yielded (streamResponseGenerator cancelledStream))
     = [ [choiceOf (text_delta (str "Hel"))] ]
  /\ Forall (fun c => chunk_usage c = None)
            (yielded (streamResponseGenerator cancelledStream)).
Proof.
  exact (failed_stream_yields_deltas_then_throws cancelledStream abortError
           eq_refl eq_refl).
Defined.

Lemma forAwait_identity evs : forall st,
  forallb (fun ev => negb (isStart ev)) evs = true ->
  Forall (fun c => chunk_id c = messageId st /\ chunk_model c = model st)
         (fst (forAwait st evs))
  /\ forall st', snd (forAwait st evs) = OK st' ->
       messageId st' = messageId st /\ model st' = model st.
Proof.
  induction evs as [| ev rest IH]; intros st H; simpl in *.
  - split; [constructor |]. intros st' E; injection E as <-. auto.
  - apply andb_prop in H as [Hev Hrest].
    destruct ev as [m | sr n | | i b | i d | i]; try discriminate; simpl.
    + match goal with
      | |- context [forAwait ?st1 rest] =>
          destruct (IH st1 Hrest) as [IH1 IH2];
          destruct (forAwait st1 rest) as [ys r]
      end. simpl in *. auto.
    + destruct (IH st Hrest) as [IH1 IH2].
      destruct (forAwait st rest) as [ys r]. simpl in *. auto.
    + destruct (IH st Hrest) as [IH1 IH2].
      destruct (forAwait st rest) as [ys r]. simpl in *. auto.
    + destruct (IH st Hrest) as [IH1 IH2].
      destruct d; simpl;
        try (split; [constructor | discriminate]);
        destruct (forAwait st rest) as [ys r]; simpl in *;
        (split; [constructor; [split; reflexivity | exact IH1] | exact IH2]).
    + destruct (IH st Hrest) as [IH1 IH2].
      destruct (forAwait st rest) as [ys r]. simpl in *. auto.
Qed.

(** X4: when a vendor stream opens with its stream-start event and has
    no other, every chunk the generator yields, the final one included,
    carries the id and the model name of that event, however the stream
    ends. *)
Theorem chunks_carry_stream_identity (stream : VendorStream) m rest :
  events stream = message_start m :: rest ->
  forallb (fun ev => negb (isStart ev)) rest = true ->
  Forall (fun c => chunk_id c = msg_id m /\ chunk_model c = msg_model m)
         (yielded (streamResponseGenerator stream)).
Proof.
  intros Hev Hrest. unfold streamResponseGenerator. rewrite Hev. simpl.
  match goal with
  | |- context [forAwait ?st1 rest] =>
      destruct (forAwait_identity rest st1 Hrest) as [I1 I2];
      destruct (forAwait st1 rest) as [ys [st | e]]
  end; simpl in *.
  - destruct (I2 st eq_refl) as [Hid Hmodel].
    destruct (failure stream); simpl; [exact I1 |].
    apply Forall_app. split; [exact I1 |].
    constructor; [| constructor]. simpl. auto.
  - exact I1.
Qed.

Lemma chunks_carry_stream_identity_witness :
  Forall (fun c => chunk_id c = str "msg_01"
                   /\ chunk_model c = str "claude-3-7-sonnet")
         (yielded (streamResponseGenerator textStream))
  /\ Forall (fun c => chunk_id c = str "msg_01"
                      /\ chunk_model c = str "claude-3-7-sonnet")
            (yielded (streamResponseGenerator toolStream)).
Proof.
  split.
  - exact (chunks_carry_stream_identity textStream sampleStart _
             eq_refl eq_refl).
  - exact (chunks_carry_stream_identity toolStream sampleStart _
             eq_refl eq_refl).
Defined.

(** X5: the generator throws in two cases only: the refusal of a
    tool-input delta, which it raises itself, and the failure of the
    vendor stream, which it lets through as it is.  In particular it never
    raises the chunk-type rejection of [parseStreamingResponseChunk]. *)
Theorem generator_throws_are_known (stream : VendorStream) e :
  thrown (streamResponseGenerator stream) = Some e ->
  (e = Error (str "Unsupported content type: input_json_delta")
   /\ existsb carriesToolInput (events stream) = true)
  \/ failure stream = Some e.
Proof.
  unfold streamResponseGenerator.
  pose proof (forAwait_throws (events stream) initialState) as T.
  destruct (forAwait initialState (events stream)) as [ys [st | e']];
    simpl in *.
  - destruct (failure stream); simpl; [| discriminate].
    intros H; injection H as ->. right. reflexivity.
  - intros H; injection H as ->. left. apply T. reflexivity.
Qed.

Lemma generator_throws_are_known_witness :
  (abortError = Error (str "Unsupported content type: input_json_delta")
   /\ existsb carriesToolInput (events cancelledStream) = true)
  \/ failure cancelledStream = Some abortError.
Proof.
  exact (generator_throws_are_known cancelledStream abortError eq_refl).
Defined.

(* ================================================================== *)
(** * Further properties of the two entry points *)
(* ================================================================== *)

Lemma thinking_blocks_are_segments blocks :
  map block_thinking (filter is_thinking blocks) = thinkingSegments blocks.
Proof.
  induction blocks as [| b rest IH]; simpl; [reflexivity |].
  destruct b; simpl; rewrite IH; reflexivity.
Qed.

(** X6: when [parseNonStreamingResponse] accepts a reply, the optional
    reasoning of the response is the concatenation, in order, of the
    thinking blocks of the reply, and it is absent when that concatenation
    is the empty string (no thinking block, or empty ones only). *)
Theorem reasoning_is_joined_thinking (response : Message) r :
  parseNonStreamingResponse response = OK r ->
  exists choice,
    resp_choices r = [choice]
    /\ rm_reasoning (nsc_message choice)
       = match List.concat (thinkingSegments (msg_content response)) with
         | [] => None
         | c :: rest => Some (c :: rest)
         end.
Proof.
  intros H.
  assert (exists first rest,
             msg_content response = first :: rest
             /\ is_tool_use first = false) as (first & rest & Hc & Hf).
  { unfold parseNonStreamingResponse in H.
    destruct (msg_content response) as [| first rest]; [discriminate |].
    destruct (is_tool_use first) eqn:T; [discriminate | eauto]. }
  unfold parseNonStreamingResponse in H. rewrite Hc, Hf, <- Hc in H.
  injection H as <-. eexists. split; [reflexivity |].
  cbn [rm_reasoning nsc_message].
  rewrite join_empty_concat, thinking_blocks_are_segments.
  destruct (List.concat (thinkingSegments (msg_content response)));
    reflexivity.
Qed.

Lemma reasoning_is_joined_thinking_witness :
  exists r choice,
    parseNonStreamingResponse sampleReply = OK r
    /\ resp_choices r = [choice]
    /\ rm_reasoning (nsc_message choice) = Some (str "hm").
Proof.
  eexists.
  destruct (reasoning_is_joined_thinking sampleReply _ eq_refl)
    as (choice & Hc & Hr).
  exists choice. split; [reflexivity |]. split; [exact Hc | exact Hr].
Defined.

Section EntryPointProperties.

Variable parseImageDataUrl : jsstring -> result (jsstring * jsstring).


(** X7: a model of another vendor is refused before anything else is
    looked at: whatever the credential and the request, both entry points
    fail with the provider-mismatch error and make no vendor call. *)
Theorem foreign_model_rejected_first self model request options :
  ~ isAnthropicModel model ->
  generateResponse parseImageDataUrl self model request options
  = (Throw (Error (str "Model is not a Anthropic model")), [])
  /\ streamResponse parseImageDataUrl self model request options
     = (Throw (Error (str "Model is not a Anthropic model")), []).
Proof.
  intros Hn. unfold generateResponse, streamResponse.
  destruct (jseqb (providerType model) (str "anthropic")) eqn:E.
  - apply jseqb_eq in E. contradiction.
  - split; reflexivity.
Qed.

Lemma createParams_passes_through model request systemMessage stream body :
  createParams parseImageDataUrl model request systemMessage stream = OK body ->
  p_model body = req_model request
  /\ p_temperature body = temperature request
  /\ p_top_p body = top_p request
  /\ p_thinking body
     = option_map
         (fun t => {| tc_type := str "enabled";
                      tc_budget_tokens := budget_tokens t |})
         (thinking model).
Proof.
  unfold createParams.
  destruct (mapM _ _) as [msgs | e]; simpl; [| discriminate].
  intros H; injection H as <-. simpl.
  destruct (thinking model); auto.
Qed.

(** X9: for a call that passes the provider, credential and
    system-message checks and whose messages translate, each entry point
    makes one vendor call; its body carries the request's model name,
    [temperature] and [top_p] unchanged, the thinking configuration of the
    chat model as an enabled budget (none when the model has none) and the
    streaming flag of the entry point, off for [generateResponse] and on
    for [streamResponse]; its options carry the abort signal of the
    caller's options, and no signal when the caller gave no options. *)
Theorem request_parameters_passed_through
    self model request options systemMessage params :
  isAnthropicModel model ->
  truthy (apiKey (client self)) = true ->
  validateSystemMessages (messages request) = OK systemMessage ->
  mapM (parseRequestMessage parseImageDataUrl) (transmitted (messages request))
  = OK params ->
  exists body streamBody ro,
    snd (generateResponse parseImageDataUrl self model request options)
    = [(body, ro)]
    /\ snd (streamResponse parseImageDataUrl self model request options)
       = [(streamBody, ro)]
    /\ ro_signal ro
       = match options with
         | Some o => signal o
         | None => None
         end
    /\ p_stream body = false
    /\ p_stream streamBody = true
    /\ forall b, b = body \/ b = streamBody ->
         p_model b = req_model request
         /\ p_temperature b = temperature request
         /\ p_top_p b = top_p request
         /\ p_thinking b
            = match thinking model with
              | Some t =>
                  Some {| tc_type := str "enabled";
                          tc_budget_tokens := budget_tokens t |}
              | None => None
              end.
Proof.
  intros Hm Hk Hv Ht.
  unfold generateResponse, streamResponse.
  rewrite Hm, jseqb_refl, Hk, Hv. simpl. run_call. unfold createParams.
  rewrite Ht. simpl.
  eexists. eexists. eexists. split.
  { destruct (create _ _ _) as [r | e]; simpl;
      [destruct (parseNonStreamingResponse r) |]; reflexivity. }
  split.
  { destruct (create_stream _ _ _) as [r | e]; reflexivity. }
  split; [reflexivity |]. split; [reflexivity |]. split; [reflexivity |].
  intros b [-> | ->]; repeat split.
Qed.

End EntryPointProperties.

Lemma foreign_model_rejected_first_witness :
  generateResponse decode (keyedAdapter answeringEndpoint)
    openaiModel terseRequest None
  = (Throw (Error (str "Model is not a Anthropic model")), [])
  /\ streamResponse decode (keyedAdapter answeringEndpoint)
       openaiModel terseRequest None
     = (Throw (Error (str "Model is not a Anthropic model")), []).
Proof.
  apply (foreign_model_rejected_first decode (keyedAdapter answeringEndpoint)
           openaiModel terseRequest None).
  unfold isAnthropicModel. simpl. discriminate.
Defined.

Lemma request_parameters_passed_through_witness :
  exists body streamBody ro,
    snd (generateResponse decode (keyedAdapter answeringEndpoint)
           thinkingModel tunedRequest abortable) = [(body, ro)]
    /\ snd (streamResponse decode (keyedAdapter answeringEndpoint)
              thinkingModel tunedRequest abortable) = [(streamBody, ro)]
    /\ ro_signal ro = Some 7%nat
    /\ p_stream body = false
    /\ p_stream streamBody = true
    /\ p_model streamBody = str "claude-3-5-haiku-latest"
    /\ p_temperature body = Some (QArith_base.Qmake 7 10)
    /\ p_top_p body = Some (QArith_base.Qmake 9 10)
    /\ p_thinking streamBody
       = Some {| tc_type := str "enabled"; tc_budget_tokens := 1024 |}.
Proof.
  destruct (request_parameters_passed_through decode
              (keyedAdapter answeringEndpoint) thinkingModel tunedRequest
              abortable _ _ eq_refl eq_refl eq_refl eq_refl)
    as (body & streamBody & ro & Hg & Hs & Hsig & Hoff & Hon & Hf).
  exists body, streamBody, ro.
  destruct (Hf body (or_introl eq_refl)) as (_ & Htemp & Htop & _).
  destruct (Hf streamBody (or_intror eq_refl)) as (Hmodel & _ & _ & Hthink).
  repeat split; assumption.
Defined.

(** X10: the system-message check accepts a message list in two cases
    only: no system-role message, and then there is no system text; or
    exactly one, of string content, and then the system text is that
    content, the empty string included. *)
Theorem validateSystemMessages_accepts_iff msgs systemMessage :
  validateSystemMessages msgs = OK systemMessage
  <-> (filter isSystem msgs = [] /\ systemMessage = None)
      \/ (exists m s,
            filter isSystem msgs = [m]
            /\ content m = ContentString s
            /\ systemMessage = Some s).
Proof.
  unfold validateSystemMessages.
  change (fun m => Role_eqb (role m) system) with isSystem.
  destruct (filter isSystem msgs) as [| m [| m' rest]]; simpl.
  - split.
    + intros H; injection H as <-. left. auto.
    + intros [[_ ->] | (m & s & H & _)]; [reflexivity | discriminate].
  - destruct (content m) as [s | parts] eqn:Hc; simpl.
    + rewrite andb_false_r. split.
      * intros H; injection H as <-. right. exists m, s. auto.
      * intros [[H _] | (m0 & s0 & H & Hc0 & ->)]; [discriminate |].
        injection H as <-. congruence.
    + split; [discriminate |].
      intros [[H _] | (m0 & s0 & H & Hc0 & _)]; [discriminate |].
      injection H as <-. congruence.
  - split; [discriminate |].
    intros [[H _] | (m0 & s0 & H & _)]; discriminate.
Qed.

Section TranslationProperties.

Variable parseImageDataUrl : jsstring -> result (jsstring * jsstring).


Lemma parseNonStreamingResponse_fields response r :
  parseNonStreamingResponse response = OK r ->
  resp_id r = msg_id response
  /\ resp_model r = msg_model response
  /\ resp_object r = str "chat.completion"
  /\ prompt_tokens (resp_usage r) = input_tokens (msg_usage response)
  /\ completion_tokens (resp_usage r) = output_tokens (msg_usage response)
  /\ total_tokens (resp_usage r)
     = prompt_tokens (resp_usage r) + completion_tokens (resp_usage r)
  /\ exists choice,
       resp_choices r = [choice]
       /\ nsc_finish_reason choice = msg_stop_reason response
       /\ rm_role (nsc_message choice) = msg_role response.
Proof.
  unfold parseNonStreamingResponse.
  destruct (msg_content response) as [| first rest]; [discriminate |].
  destruct (is_tool_use first); [discriminate |].
  intros H; injection H as <-. cbn.
  repeat split. eexists. repeat split.
Qed.

(** X11: [generateResponse] returns a response only from a reply of the
    vendor: exactly one call was made and answered, the response takes its
    id, model name, finish reason and role from that reply, has a single
    choice, and its usage renames the reply's counts, [total_tokens] being
    the sum of the two. *)
Theorem response_built_from_vendor_reply self model request options r :
  fst (generateResponse parseImageDataUrl self model request options) = OK r ->
  exists body response,
    snd (generateResponse parseImageDataUrl self model request options)
    = [(body, requestOptions options)]
    /\ create (transport (client self)) body (requestOptions options)
       = OK response
    /\ resp_id r = msg_id response
    /\ resp_model r = msg_model response
    /\ prompt_tokens (resp_usage r) = input_tokens (msg_usage response)
    /\ completion_tokens (resp_usage r) = output_tokens (msg_usage response)
    /\ total_tokens (resp_usage r)
       = prompt_tokens (resp_usage r) + completion_tokens (resp_usage r)
    /\ exists choice,
         resp_choices r = [choice]
         /\ nsc_finish_reason choice = msg_stop_reason response
         /\ rm_role (nsc_message choice) = msg_role response.
Proof.
  unfold generateResponse.
  destruct (jseqb _ _); simpl; [| discriminate].
  destruct (truthy _); simpl; [| discriminate].
  run_call.
  destruct (validateSystemMessages _) as [sm | e]; [| discriminate].
  destruct (createParams _ _ _ _ _) as [body | e]; simpl; [| discriminate].
  destruct (create _ _ _) as [response | e] eqn:C; simpl; [| discriminate].
  destruct (parseNonStreamingResponse response) as [r' | e] eqn:P;
    simpl; [| discriminate].
  intros H; injection H as <-.
  exists body, response.
  destruct (parseNonStreamingResponse_fields _ _ P)
    as (H1 & H2 & _ & H4 & H5 & H6 & H7).
  auto 10.
Qed.

(** X12: a reply of the vendor without any content block makes
    [generateResponse] fail with the runtime's [TypeError], handed on as it
    is; it is neither a response with an empty body nor the tool-use
    rejection. *)
Theorem empty_reply_raises_type_error
    self model request options body ro response :
  In (body, ro) (snd (generateResponse parseImageDataUrl self model request options)) ->
  create (transport (client self)) body ro = OK response ->
  msg_content response = [] ->
  exists message,
    generateResponse parseImageDataUrl self model request options
    = (Throw (TypeError message), [(body, ro)]).
Proof.
  intros Hcall Hreply Hempty.
  apply generateResponse_calls in Hcall
    as (sm & b & Hm & Hk & Hv & Hb & E).
  injection E as -> ->.
  unfold generateResponse.
  rewrite Hm, jseqb_refl, Hk, Hv. simpl. run_call.
  rewrite Hb, Hreply. unfold parseNonStreamingResponse. rewrite Hempty.
  eexists. reflexivity.
Qed.

Lemma text_messages_translate_verbatim msgs :
  Forall (fun m => role m = user -> isArray (content m) = false) msgs ->
  mapM (parseRequestMessage parseImageDataUrl) (transmitted msgs)
  = OK (map verbatim (filter isKept msgs)).
Proof.
  intros Htext. rewrite transmitted_filter. fold isKept.
  induction msgs as [| m rest IH]; simpl; [reflexivity |].
  inversion Htext as [| ? ? Hm Hrest]; subst.
  destruct (isKept m) eqn:K; [| apply IH; exact Hrest].
  cbn [mapM map]. rewrite (IH Hrest).
  unfold isKept, isSystem in K. apply andb_prop in K as [Ks _].
  unfold parseRequestMessage, verbatim.
  destruct (role m) eqn:R; simpl in Ks; try discriminate; simpl.
  - rewrite (Hm eq_refl). reflexivity.
  - reflexivity.
Qed.

(** X13: a request whose user-role messages all have string content
    cannot fail in translation: once the provider, credential and
    system-message checks have passed, each entry point makes exactly one
    vendor call, and the transmitted list is the messages that are neither
    system-role nor empty, in their order, each with its role and its
    string exactly as given (nothing is trimmed). *)
Theorem text_only_request_reaches_vendor
    self model request options systemMessage :
  isAnthropicModel model ->
  truthy (apiKey (client self)) = true ->
  validateSystemMessages (messages request) = OK systemMessage ->
  Forall (fun m => role m = user -> isArray (content m) = false)
         (messages request) ->
  (exists body,
     snd (generateResponse parseImageDataUrl self model request options)
     = [(body, requestOptions options)]
     /\ p_system body = systemMessage
     /\ p_messages body = map verbatim (filter isKept (messages request)))
  /\ (exists body,
        snd (streamResponse parseImageDataUrl self model request options)
        = [(body, requestOptions options)]
        /\ p_system body = systemMessage
        /\ p_messages body = map verbatim (filter isKept (messages request))).
Proof.
  intros Hm Hk Hv Htext.
  pose proof (text_messages_translate_verbatim _ Htext) as Ht.
  unfold generateResponse, streamResponse.
  rewrite Hm, jseqb_refl, Hk, Hv. simpl. run_call. unfold createParams.
  rewrite Ht. simpl. split.
  - eexists. split.
    { destruct (create _ _ _) as [r | e]; simpl;
        [destruct (parseNonStreamingResponse r) |]; reflexivity. }
    split; reflexivity.
  - eexists. split.
    { destruct (create_stream _ _ _) as [r | e]; reflexivity. }
    split; reflexivity.
Qed.

Lemma parseContentPart_ok part block :
  parseContentPart parseImageDataUrl part = OK block ->
  partTranslated parseImageDataUrl part block.
Proof.
  destruct part as [t | url]; simpl.
  - intros H; injection H as <-. reflexivity.
  - destruct (parseImageDataUrl url) as [[mimeType base64Data] | e] eqn:D;
      simpl; [| discriminate].
    unfold validateImageType.
    destruct (array_includes SUPPORTED_IMAGE_TYPES mimeType) eqn:I;
      cbn [negb bind]; [| discriminate].
    intros H; injection H as <-.
    exists mimeType, base64Data. split; [reflexivity |].
    split; [exact (proj1 (array_includes_In _ _) I) | reflexivity].
Qed.

Lemma mapM_parts_translated parts blocks :
  mapM (parseContentPart parseImageDataUrl) parts = OK blocks ->
  Forall2 (partTranslated parseImageDataUrl) parts blocks.
Proof.
  intros E. apply mapM_Forall2 in E.
  eapply Forall2_impl; [| exact E].
  intros part block. apply parseContentPart_ok.
Qed.

(** X14: when [parseRequestMessage] accepts a user-role message with
    multi-part content, the transmitted content has one block for each
    part, in order: a text part gives the text block with the same text;
    an image part gives a base64 image block with the payload and the
    mime type decoded from its reference, that type being in the
    allow-list. *)
Theorem user_parts_translated_one_to_one m parts p :
  role m = user ->
  content m = ContentParts parts ->
  parseRequestMessage parseImageDataUrl m = OK p ->
  exists blocks,
    p = {| mp_role := user; mp_content := ParamBlocks blocks |}
    /\ Forall2 (partTranslated parseImageDataUrl) parts blocks.
Proof.
  intros Hr Hc. unfold parseRequestMessage. rewrite Hr, Hc. simpl.
  destruct (mapM _ parts) as [blocks | e] eqn:E; simpl; [| discriminate].
  intros H; injection H as <-. exists blocks. split; [reflexivity |].
  apply mapM_parts_translated. exact E.
Qed.

Lemma asBlock_not_image parts base64Data mimeType :
  ~ In (ImageBlockParam base64Data mimeType) (map asBlock parts).
Proof.
  intros H. apply in_map_iff in H as (part & E & _).
  destruct part; discriminate.
Qed.

(** X15: in every vendor call of either entry point, each base64 image
    block of a transmitted message sits in a user-role message and has a
    media type of the allow-list.  The array of an assistant-role message
    is handed on as the caller gave it: its parts are [image_url] parts
    still, no image blocks, and the statement says nothing about them. *)
Theorem transmitted_image_blocks_are_supported
    self model request options body ro :
  In (body, ro) (snd (generateResponse parseImageDataUrl self model request options))
  \/ In (body, ro) (snd (streamResponse parseImageDataUrl self model request options)) ->
  Forall (fun p =>
            forall blocks base64Data mimeType,
              mp_content p = ParamBlocks blocks ->
              In (ImageBlockParam base64Data mimeType) blocks ->
              mp_role p = user /\ In mimeType SUPPORTED_IMAGE_TYPES)
         (p_messages body).
Proof.
  intros Hcall.
  assert (exists sm stream, createParams parseImageDataUrl model request sm stream = OK body)
    as (sm & stream & Hb).
  { destruct Hcall as [H | H];
      [apply generateResponse_calls in H | apply streamResponse_calls in H];
      destruct H as (sm & b & _ & _ & _ & Hb & E);
      injection E as -> _; eauto. }
  apply createParams_fields in Hb as (Hm & _).
  apply mapM_Forall2 in Hm.
  induction Hm as [| m p ms ps Hp _ IH]; constructor; [| exact IH].
  intros blocks base64Data mimeType Hblocks Hin.
  unfold parseRequestMessage in Hp.
  destruct (role m) eqn:R; simpl in Hp; [| | discriminate].
  - destruct (content m) as [s | parts] eqn:C; simpl in Hp.
    + injection Hp as <-. discriminate.
    + destruct (mapM _ parts) as [bs |] eqn:E; simpl in Hp; [| discriminate].
      injection Hp as <-. apply mapM_parts_translated in E as F.
      simpl in Hblocks. injection Hblocks as <-. split; [reflexivity |].
      clear - F Hin. induction F as [| part block ps' bs' Hpb _ IHF].
      * contradiction.
      * destruct Hin as [-> | Hin]; [| exact (IHF Hin)].
        destruct part as [t | url]; simpl in Hpb; [discriminate |].
        destruct Hpb as (mt & d & _ & Hs & E). injection E as <- <-. exact Hs.
  - injection Hp as <-. simpl in Hblocks.
    destruct (content m) as [s | parts]; simpl in Hblocks; [discriminate |].
    injection Hblocks as <-.
    destruct (asBlock_not_image _ _ _ Hin).
Qed.

(** X16: a failure of request translation ends the call before the
    vendor is contacted, and the error is handed on as it is: whatever
    [parseRequestMessage] throws on a message of the request (a reference
    the resolver refuses, an image type outside the allow-list) is what
    both entry points throw, with no vendor call. *)
Theorem translation_failure_stops_before_vendor
    self model request options systemMessage e :
  isAnthropicModel model ->
  truthy (apiKey (client self)) = true ->
  validateSystemMessages (messages request) = OK systemMessage ->
  mapM (parseRequestMessage parseImageDataUrl) (transmitted (messages request)) = Throw e ->
  isAuthenticationError e = false ->
  generateResponse parseImageDataUrl self model request options = (Throw e, [])
  /\ streamResponse parseImageDataUrl self model request options = (Throw e, []).
Proof.
  intros Hm Hk Hv Ht Ha.
  unfold generateResponse, streamResponse.
  rewrite Hm, jseqb_refl, Hk, Hv. simpl. run_call. unfold createParams.
  rewrite Ht. simpl. unfold onCreateError. rewrite Ha. split; reflexivity.
Qed.

End TranslationProperties.

Lemma response_built_from_vendor_reply_witness :
  exists r body response,
    fst (generateResponse decode (keyedAdapter answeringEndpoint)
           anthropicModel terseRequest None) = OK r
    /\ snd (generateResponse decode (keyedAdapter answeringEndpoint)
              anthropicModel terseRequest None)
       = [(body, requestOptions None)]
    /\ create answeringEndpoint body (requestOptions None) = OK response
    /\ total_tokens (resp_usage r)
       = prompt_tokens (resp_usage r) + completion_tokens (resp_usage r).
Proof.
  eexists.
  destruct (response_built_from_vendor_reply decode
              (keyedAdapter answeringEndpoint) anthropicModel terseRequest
              None _ eq_refl)
    as (body & response & Hlog & Hreply & _ & _ & _ & _ & Htotal & _).
  exists body, response.
  split; [reflexivity |]. split; [exact Hlog |].
  split; [exact Hreply | exact Htotal].
Defined.

Lemma empty_reply_raises_type_error_witness :
  msg_content emptyReply = []
  /\ exists message,
       generateResponse decode (keyedAdapter emptyReplyEndpoint)
         anthropicModel terseRequest None
       = (Throw (TypeError message),
          [(terseBody None 8192 false, noSignal)]).
Proof.
  split; [reflexivity |].
  exact (empty_reply_raises_type_error decode
           (keyedAdapter emptyReplyEndpoint) anthropicModel terseRequest None
           (terseBody None 8192 false) noSignal emptyReply
           (or_introl eq_refl) eq_refl eq_refl).
Defined.

Lemma text_only_request_reaches_vendor_witness :
  exists body,
    snd (generateResponse decode (keyedAdapter (failingEndpoint overloadedError))
           anthropicModel terseRequest None)
    = [(body, requestOptions None)]
    /\ p_system body = Some (str "Be terse")
    /\ p_messages body = map verbatim (filter isKept (messages terseRequest)).
Proof.
  destruct (text_only_request_reaches_vendor decode
              (keyedAdapter (failingEndpoint overloadedError))
              anthropicModel terseRequest None (Some (str "Be terse")))
    as (H & _).
  - reflexivity.
  - reflexivity.
  - reflexivity.
  - repeat constructor.
  - exact H.
Defined.

Lemma user_parts_translated_one_to_one_witness :
  exists blocks,
    parseRequestMessage decode pngMessage
    = OK {| mp_role := user; mp_content := ParamBlocks blocks |}
    /\ Forall2 (partTranslated decode)
         [TextContent (str "What is this?"); pngPart] blocks.
Proof.
  destruct (user_parts_translated_one_to_one decode pngMessage
              [TextContent (str "What is this?"); pngPart] _
              eq_refl eq_refl eq_refl) as (blocks & E & F).
  exists blocks. split; [| exact F]. rewrite <- E. reflexivity.
Defined.

Lemma transmitted_image_blocks_are_supported_witness :
  snd (generateResponse decode (keyedAdapter answeringEndpoint)
         anthropicModel pngThenAssistantRequest None)
  = [(pngThenAssistantBody, noSignal)]
  /\ Forall (fun p =>
               forall blocks base64Data mimeType,
                 mp_content p = ParamBlocks blocks ->
                 In (ImageBlockParam base64Data mimeType) blocks ->
                 mp_role p = user /\ In mimeType SUPPORTED_IMAGE_TYPES)
            (p_messages pngThenAssistantBody).
Proof.
  split; [reflexivity |].
  exact (transmitted_image_blocks_are_supported decode
           (keyedAdapter answeringEndpoint) anthropicModel
           pngThenAssistantRequest None
           pngThenAssistantBody noSignal (or_introl (or_introl eq_refl))).
Defined.

Lemma translation_failure_stops_before_vendor_witness :
  generateResponse decode (keyedAdapter answeringEndpoint)
    anthropicModel brokenImageRequest None
  = (Throw (Error (str "MalformedImageReference")), [])
  /\ streamResponse decode (keyedAdapter answeringEndpoint)
       anthropicModel brokenImageRequest None
     = (Throw (Error (str "MalformedImageReference")), []).
Proof.
  exact (translation_failure_stops_before_vendor decode
           (keyedAdapter answeringEndpoint) anthropicModel brokenImageRequest
           None None (Error (str "MalformedImageReference"))
           eq_refl eq_refl eq_refl eq_refl eq_refl).
Defined.

(* ================================================================== *)
(** * Properties of the constructor and of the emptiness test *)
(* ================================================================== *)

Lemma dropSlashes_split s :
  exists k,
    s = slashes k ++ dropSlashes s
    /\ forall rest, dropSlashes s <> 47%N :: rest.
Proof.
  induction s as [| c s (k & Hs & Hh)]; simpl.
  - exists 0%nat. split; [reflexivity | discriminate].
  - destruct (N.eqb c 47) eqn:E.
    + apply N.eqb_eq in E. subst c.
      exists (S k). split; [simpl; f_equal; exact Hs | exact Hh].
    + exists 0%nat. split; [reflexivity |].
      intros rest H. injection H as -> _. discriminate.
Qed.

Lemma rev_slashes k : rev (slashes k) = slashes k.
Proof.
  unfold slashes. induction k as [| k IH]; simpl; [reflexivity |].
  rewrite IH. symmetry. apply repeat_cons.
Qed.

Lemma stripTrailingSlashes_split s :
  exists k,
    s = stripTrailingSlashes s ++ slashes k
    /\ forall front, stripTrailingSlashes s <> front ++ [47%N].
Proof.
  unfold stripTrailingSlashes.
  destruct (dropSlashes_split (rev s)) as (k & Hs & Hh).
  exists k. split.
  - rewrite <- (rev_involutive s) at 1. rewrite Hs at 1.
    rewrite rev_app_distr, rev_slashes. reflexivity.
  - intros front H. apply (f_equal (@rev code_unit)) in H.
    rewrite rev_involutive, rev_app_distr in H. simpl in H.
    exact (Hh _ H).
Qed.

(** X17: the client is built with a base URL only when the provider
    record has a non-empty one, and that URL is the record's without its
    trailing slashes: the record's URL is the client's followed by slashes
    only, and the client's does not end with a slash. *)
Theorem client_base_url_stripped environmentKey endpoint prov :
  match baseURL (client (new_AnthropicProvider environmentKey endpoint prov)) with
  | Some url =>
      (exists k, provider_baseUrl prov = Some (url ++ slashes k))
      /\ (forall front, url <> front ++ [47%N])
  | None => truthy (provider_baseUrl prov) = false
  end.
Proof.
  simpl. destruct (provider_baseUrl prov) as [[| c rest] |]; simpl;
    try reflexivity.
  destruct (stripTrailingSlashes_split (c :: rest)) as (k & Hs & Hh).
  split; [exists k; f_equal; exact Hs | exact Hh].
Qed.

(** X18: [isMessageEmpty] holds exactly for a message whose content is
    a string of white space only (the empty string included) or a
    multi-part content without any part; a multi-part content with a part
    is never empty, whatever the part holds. *)
Theorem isMessageEmpty_iff m :
  isMessageEmpty m = true
  <-> (exists s,
         content m = ContentString s
         /\ Forall (fun c => isWhiteSpace c = true) s)
      \/ content m = ContentParts [].
Proof.
  rewrite isMessageEmpty_spec. unfold emptyContent.
  destruct (content m) as [s | [| part parts]].
  - rewrite forallb_forall, <- Forall_forall. split.
    + intros H. left. exists s. auto.
    + intros [(s' & E & H) | E]; [injection E as <-; exact H | discriminate].
  - split; [right; reflexivity | reflexivity].
  - split; [discriminate |].
    intros [(s' & E & _) | E]; discriminate.
Qed.

(* ================================================================== *)
(** * Properties of the settings migration *)
(* ================================================================== *)

Section SettingsProperties.

Variable Data : Type.
Variable SmartComposerSettings : Type.
Variable version : Data -> option Z.
Variable emptyObject : Data.
Variable schemaParse : Data -> result SmartComposerSettings.
Variable SETTINGS_SCHEMA_VERSION : Z.
Variable SETTING_MIGRATIONS : list (SettingMigration Data).

Lemma migrateLoop_up_to_date (migrations : list (SettingMigration Data)) :
  forall data v,
  SETTINGS_SCHEMA_VERSION <= v ->
  migrateLoop SETTINGS_SCHEMA_VERSION migrations data v = (OK data, []).
Proof.
  induction migrations as [| m rest IH]; intros data v Hv; simpl.
  - reflexivity.
  - unfold applies.
    destruct (v <? toVersion m) eqn:L1;
      destruct (toVersion m <=? SETTINGS_SCHEMA_VERSION) eqn:L2;
      rewrite ?andb_true_r, ?andb_false_r; simpl;
      try (apply IH; exact Hv).
    apply Z.ltb_lt in L1. apply Z.leb_le in L2. lia.
Qed.

(** X19: settings whose version is the schema version or above it are
    not migrated: whatever the migration table holds, [migrateSettings]
    returns the object as it is and logs nothing. *)
Theorem settings_up_to_date_not_migrated data v :
  version (spread emptyObject data) = Some v ->
  SETTINGS_SCHEMA_VERSION <= v ->
  migrateSettings version emptyObject SETTINGS_SCHEMA_VERSION
          SETTING_MIGRATIONS data = (OK (spread emptyObject data), []).
Proof.
  intros Hver Hv. unfold migrateSettings. rewrite Hver.
  apply migrateLoop_up_to_date. exact Hv.
Qed.

Lemma migrateLoop_climbs (migrations : list (SettingMigration Data)) :
  forall data v,
  climbs SETTINGS_SCHEMA_VERSION v (snd (migrateLoop SETTINGS_SCHEMA_VERSION migrations data v)).
Proof.
  induction migrations as [| m rest IH]; intros data v; simpl.
  - exact I.
  - destruct (applies SETTINGS_SCHEMA_VERSION v m) eqn:A; [| apply IH].
    unfold applies in A.
    apply andb_prop in A as [A A3]. apply andb_prop in A as [A1 A2].
    apply Z.leb_le in A1. apply Z.ltb_lt in A2. apply Z.leb_le in A3.
    destruct (migrate m data) as [migrated | e]; simpl.
    + specialize (IH migrated (toVersion m)).
      destruct (migrateLoop SETTINGS_SCHEMA_VERSION rest migrated (toVersion m)) as [r logged].
      simpl in *. auto.
    + auto.
Qed.

(** X20: the migrations that [migrateSettings] applies climb from the
    version of the object (zero when it has none): each one starts at or
    below the version reached so far, ends strictly above it, and never
    above the schema version; so no migration is applied twice and none
    leads past the schema version. *)
Theorem applied_migrations_climb data :
  climbs SETTINGS_SCHEMA_VERSION
    (match version (spread emptyObject data) with
     | Some v => v
     | None => 0
     end)
    (snd (migrateSettings version emptyObject SETTINGS_SCHEMA_VERSION
          SETTING_MIGRATIONS data)).
Proof. unfold migrateSettings. apply migrateLoop_climbs. Qed.

Lemma migrateLoop_contiguous (migrations : list (SettingMigration Data)) :
  forall k data v,
  contiguousFrom k migrations ->
  k <= v <= k + Z.of_nat (List.length migrations) ->
  k + Z.of_nat (List.length migrations) <= SETTINGS_SCHEMA_VERSION ->
  fst (migrateLoop SETTINGS_SCHEMA_VERSION migrations data v)
  = applyAll (skipn (Z.to_nat (v - k)) migrations) data.
Proof.
  induction migrations as [| m rest IH]; intros k data v Hc Hv Hs.
  - simpl. destruct (Z.to_nat (v - k)); reflexivity.
  - destruct Hc as (Hf & Ht & Hc).
    cbn [List.length] in Hv, Hs. rewrite Nat2Z.inj_succ in Hv, Hs.
    cbn [migrateLoop]. unfold applies. rewrite Hf, Ht.
    destruct (Z.eq_dec v k) as [-> | Hne].
    + replace (k <=? k) with true by (symmetry; apply Z.leb_le; lia).
      replace (k <? k + 1) with true by (symmetry; apply Z.ltb_lt; lia).
      replace (k + 1 <=? SETTINGS_SCHEMA_VERSION) with true
        by (symmetry; apply Z.leb_le; lia).
      rewrite Z.sub_diag. cbn [andb Z.to_nat skipn applyAll].
      destruct (migrate m data) as [migrated | e]; [| reflexivity].
      specialize (IH (k + 1) migrated (k + 1) Hc).
      destruct (migrateLoop SETTINGS_SCHEMA_VERSION rest migrated (k + 1)) as [r logged].
      cbn [fst bind]. cbn [fst] in IH. rewrite IH by lia.
      rewrite Z.sub_diag. reflexivity.
    + replace (v <? k + 1) with false by (symmetry; apply Z.ltb_ge; lia).
      rewrite andb_false_r. cbn [andb].
      rewrite (IH (k + 1) data v Hc) by lia.
      replace (Z.to_nat (v - k)) with (S (Z.to_nat (v - (k + 1)))) by lia.
      reflexivity.
Qed.

(** X21: with a migration table that goes from version 0 up one version
    at a time and does not pass the schema version, an object of version
    [v] within the table gets the migrations from the [v]-th on, each
    once and in order, and no other; the first migration that throws ends
    the run with what it throws. *)
Theorem contiguous_table_applies_suffix data v :
  contiguousFrom 0 SETTING_MIGRATIONS ->
  Z.of_nat (List.length SETTING_MIGRATIONS) <= SETTINGS_SCHEMA_VERSION ->
  match version (spread emptyObject data) with
  | Some v' => v'
  | None => 0
  end = v ->
  0 <= v <= Z.of_nat (List.length SETTING_MIGRATIONS) ->
  fst (migrateSettings version emptyObject SETTINGS_SCHEMA_VERSION
          SETTING_MIGRATIONS data)
  = applyAll (skipn (Z.to_nat v) SETTING_MIGRATIONS)
      (spread emptyObject data).
Proof.
  intros Hc Hs Hver Hv. unfold migrateSettings. rewrite Hver.
  rewrite (migrateLoop_contiguous SETTING_MIGRATIONS 0) by (auto; lia).
  rewrite Z.sub_0_r. reflexivity.
Qed.

(** X22: when the schema accepts the empty object (every setting has a
    default), [parseSmartComposerSettings] never throws: it returns either
    the validated migrated settings, and then nothing was reported, or,
    when a migration threw or validation refused the migrated object, the
    defaults, after a warning. *)
Theorem settings_fall_back_to_defaults data defaults :
  schemaParse emptyObject = OK defaults ->
  exists settings,
    fst (parseSmartComposerSettings version emptyObject schemaParse
          SETTINGS_SCHEMA_VERSION SETTING_MIGRATIONS data) = OK settings
    /\ (snd (parseSmartComposerSettings version emptyObject schemaParse
          SETTINGS_SCHEMA_VERSION SETTING_MIGRATIONS data) = true ->
        settings = defaults
        /\ forall migrated,
             fst (migrateSettings version emptyObject SETTINGS_SCHEMA_VERSION
          SETTING_MIGRATIONS data) = OK migrated ->
             exists e, schemaParse migrated = Throw e)
    /\ (snd (parseSmartComposerSettings version emptyObject schemaParse
          SETTINGS_SCHEMA_VERSION SETTING_MIGRATIONS data) = false ->
        exists migrated,
          fst (migrateSettings version emptyObject SETTINGS_SCHEMA_VERSION
          SETTING_MIGRATIONS data) = OK migrated
          /\ schemaParse migrated = OK settings).
Proof.
  intros Hd. unfold parseSmartComposerSettings.
  destruct (fst (migrateSettings version emptyObject SETTINGS_SCHEMA_VERSION
          SETTING_MIGRATIONS data)) as [migrated | e]; simpl.
  - destruct (schemaParse migrated) as [settings | e] eqn:P; simpl.
    + exists settings. split; [reflexivity |]. split; [discriminate |].
      intros _. exists migrated. auto.
    + rewrite Hd. exists defaults. split; [reflexivity |].
      split; [| discriminate].
      intros _. split; [reflexivity |].
      intros m' E. injection E as <-. eauto.
  - rewrite Hd. exists defaults. split; [reflexivity |].
    split; [| discriminate].
    intros _. split; [reflexivity |]. intros m' E. discriminate.
Qed.

End SettingsProperties.

Lemma settings_up_to_date_not_migrated_witness :
  migrateSettings sampleVersion (None, []) 2 sampleMigrations
    (Some (Some 2, ["chatModels"%string; "providers"%string]))
  = (OK (Some 2, ["chatModels"%string; "providers"%string]), []).
Proof.
  apply (settings_up_to_date_not_migrated SampleData sampleVersion (None, [])
           2 sampleMigrations
           (Some (Some 2, ["chatModels"%string; "providers"%string])) 2).
  - reflexivity.
  - lia.
Defined.

Lemma contiguous_table_applies_suffix_witness :
  fst (migrateSettings sampleVersion (None, []) 2 sampleMigrations
         None)
  = OK (Some 2, ["chatModels"%string; "providers"%string])
  /\ fst (migrateSettings sampleVersion (None, []) 2
            sampleMigrations (Some (Some 1, ["providers"%string])))
     = OK (Some 2, ["chatModels"%string; "providers"%string]).
Proof.
  split.
  - rewrite (contiguous_table_applies_suffix SampleData sampleVersion (None, [])
               2 sampleMigrations None 0).
    + reflexivity.
    + simpl. auto.
    + simpl. lia.
    + reflexivity.
    + simpl. lia.
  - rewrite (contiguous_table_applies_suffix SampleData sampleVersion (None, [])
               2 sampleMigrations (Some (Some 1, ["providers"%string])) 1).
    + reflexivity.
    + simpl. auto.
    + simpl. lia.
    + reflexivity.
    + simpl. lia.
Defined.

Lemma settings_fall_back_to_defaults_witness :
  lenientSchema (None, []) = OK []
  /\ exists settings,
       fst (parseSmartComposerSettings sampleVersion
              (None, []) lenientSchema 2 sampleMigrations None)
       = OK settings.
Proof.
  split; [reflexivity |].
  destruct (settings_fall_back_to_defaults SampleData (list string)
              sampleVersion (None, []) lenientSchema 2 sampleMigrations
              None [] eq_refl) as (settings & H & _).
  exists settings. exact H.
Defined.

(** On a first run the sample table is applied from its start and the
    strict sample schema accepts the outcome; an object the schema
    refuses is replaced by what the schema makes of the empty object. *)
Example sample_settings_runs :
  parseSmartComposerSettings sampleVersion
    (None, []) sampleSchema 2 sampleMigrations None
  = (OK ["chatModels"%string; "providers"%string], false)
  /\ snd (migrateSettings sampleVersion (None, []) 2
            sampleMigrations None)
     = [(0, 1); (1, 2)]
  /\ snd (parseSmartComposerSettings sampleVersion
            (None, []) lenientSchema 2
            [ {| fromVersion := 0; toVersion := 1;
                 migrate := fun _ => Throw (TypeError (str "x is undefined")) |} ]
            None)
     = true.
Proof. repeat split. Qed.

(* ================================================================== *)
(** * Properties of the thinking-budget editor *)
(* ================================================================== *)

Section ThinkingSettingsProperties.

Variable parseInt10 : jsstring -> option Z.
Variable safeParse : ChatModel -> SafeParseResult.
Variable parseImageDataUrl : jsstring -> result (jsstring * jsstring).


Lemma handleSubmit_saved typedModel budgetTokens chatModels saved :
  handleSubmit parseInt10 safeParse typedModel budgetTokens chatModels = Saved saved ->
  exists parsedTokens,
    parseInt10 budgetTokens = Some parsedTokens
    /\ 1024 <= parsedTokens
    /\ safeParse (withBudget typedModel parsedTokens) = Success
    /\ saved
       = map (fun m =>
                if jseqb (chat_model_id m) (chat_model_id typedModel)
                then withBudget typedModel parsedTokens else m)
             chatModels.
Proof.
  unfold handleSubmit.
  destruct (parseInt10 budgetTokens) as [parsedTokens |]; [| discriminate].
  destruct (parsedTokens <? 1024) eqn:L; [discriminate |].
  destruct (safeParse _) eqn:S; [| discriminate].
  intros H; injection H as <-. apply Z.ltb_ge in L.
  exists parsedTokens. auto.
Qed.

(** X23: the editor saves only a validated budget: when [handleSubmit]
    saves, the text of the field parsed as a number, that number is at
    least 1024 and the chat-model schema accepted the updated model; the
    saved list has the length of the old one, the models with the edited
    id are replaced by the updated model and every other model is kept as
    it was. *)
Theorem saved_budget_is_validated typedModel budgetTokens chatModels saved :
  handleSubmit parseInt10 safeParse typedModel budgetTokens chatModels = Saved saved ->
  exists parsedTokens,
    parseInt10 budgetTokens = Some parsedTokens
    /\ 1024 <= parsedTokens
    /\ safeParse (withBudget typedModel parsedTokens) = Success
    /\ Forall2
         (fun old new =>
            (chat_model_id old = chat_model_id typedModel ->
             new = withBudget typedModel parsedTokens)
            /\ (chat_model_id old <> chat_model_id typedModel -> new = old))
         chatModels saved.
Proof.
  intros H. apply handleSubmit_saved in H as (parsedTokens & Hp & Hl & Hs & ->).
  exists parsedTokens. repeat split; try assumption.
  induction chatModels as [| m rest IH]; simpl; constructor; [| exact IH].
  destruct (jseqb (chat_model_id m) (chat_model_id typedModel)) eqn:E.
  - split; [reflexivity |]. apply jseqb_eq in E. contradiction.
  - split; [| reflexivity]. intros Hid. apply jseqb_eq in Hid. congruence.
Qed.

(** X24: a budget saved by the editor reaches the vendor as saved: for
    a saved model with the edited id and a request without [max_tokens],
    the body built by [createParams] enables thinking with the parsed
    budget and asks for that budget plus the default floor, hence for at
    least 9216 tokens. *)
Theorem saved_budget_sets_max_tokens
    typedModel budgetTokens chatModels saved
    model request systemMessage stream body :
  handleSubmit parseInt10 safeParse typedModel budgetTokens chatModels = Saved saved ->
  In model saved ->
  chat_model_id model = chat_model_id typedModel ->
  max_tokens request = None ->
  createParams parseImageDataUrl model request systemMessage stream = OK body ->
  exists parsedTokens,
    parseInt10 budgetTokens = Some parsedTokens
    /\ p_thinking body
       = Some {| tc_type := str "enabled";
                 tc_budget_tokens := parsedTokens |}
    /\ p_max_tokens body = parsedTokens + DEFAULT_MAX_TOKENS
    /\ 9216 <= p_max_tokens body.
Proof.
  intros H Hin Hid Hmax Hb.
  apply handleSubmit_saved in H as (parsedTokens & Hp & Hl & _ & ->).
  exists parsedTokens. split; [exact Hp |].
  assert (Hmodel : model = withBudget typedModel parsedTokens).
  { apply in_map_iff in Hin as (m & Hm & _).
    destruct (jseqb (chat_model_id m) (chat_model_id typedModel)) eqn:E.
    - symmetry. exact Hm.
    - subst m. apply jseqb_eq in Hid. congruence. }
  subst model.
  unfold createParams in Hb.
  destruct (mapM _ _) as [msgs | e]; simpl in Hb; [| discriminate].
  injection Hb as <-. cbn. rewrite Hmax.
  unfold DEFAULT_MAX_TOKENS. repeat split. lia.
Qed.

End ThinkingSettingsProperties.

Lemma saved_budget_is_validated_witness :
  exists parsedTokens,
    Some 2048 = Some parsedTokens
    /\ 1024 <= parsedTokens
    /\ Forall2
         (fun old new =>
            (chat_model_id old = chat_model_id thinkingModel ->
             new = withBudget thinkingModel parsedTokens)
            /\ (chat_model_id old <> chat_model_id thinkingModel ->
                new = old))
         [anthropicModel; thinkingModel]
         [anthropicModel; withBudget thinkingModel 2048].
Proof.
  destruct (saved_budget_is_validated (fun _ => Some 2048) (fun _ => Success)
              thinkingModel (str "2048") [anthropicModel; thinkingModel]
              [anthropicModel; withBudget thinkingModel 2048] eq_refl)
    as (parsedTokens & Hp & Hl & _ & F).
  exists parsedTokens. auto.
Defined.

Lemma saved_budget_sets_max_tokens_witness :
  exists parsedTokens,
    Some 2048 = Some parsedTokens
    /\ p_max_tokens
         (terseBody (Some {| tc_type := str "enabled";
                             tc_budget_tokens := 2048 |}) 10240 false)
       = parsedTokens + DEFAULT_MAX_TOKENS.
Proof.
  destruct (saved_budget_sets_max_tokens (fun _ => Some 2048)
              (fun _ => Success) decode
              thinkingModel (str "2048") [anthropicModel; thinkingModel]
              [anthropicModel; withBudget thinkingModel 2048]
              (withBudget thinkingModel 2048) terseRequest
              (Some (str "Be terse")) false
              (terseBody (Some {| tc_type := str "enabled";
                                  tc_budget_tokens := 2048 |}) 10240 false)
              eq_refl (or_intror (or_introl eq_refl)) eq_refl eq_refl eq_refl)
    as (parsedTokens & Hp & _ & Hm & _).
  exists parsedTokens. auto.
Defined.
